(** * EFI variable events of pcr-oracle: a shallow embedding of
      [src/efi-variable.c] and the properties of its rehash path.

    The file follows the C source function by function.  Bytes are
    integers in [0, 256), C strings are [string]s (a sequence of 8-bit
    characters, the terminating NUL left implicit), [unsigned int]
    arithmetic is written with its wrap-around, and a [char *] or
    [buffer_t *] that may be NULL or a magic value is an inductive
    type.  The process-wide state the code touches (the static
    [varname] array and the diagnostic output) is threaded explicitly
    through a small state-and-error monad. *)

From Stdlib Require Import ZArith List String Ascii Bool Lia.
Import ListNotations.

Open Scope Z_scope.

(** ** Bytes, C strings and fixed-width integers *)

Definition byte := Z.

Definition wrap32 (z : Z) : Z := z mod 2 ^ 32.

Definition byte_of_char (c : ascii) : byte := Z.of_N (N_of_ascii c).
Definition char_of_byte (b : byte) : ascii := ascii_of_N (Z.to_N b).

Definition bytes_of_string (s : string) : list byte :=
  map byte_of_char (list_ascii_of_string s).

Definition string_of_bytes (bs : list byte) : string :=
  string_of_list_ascii (map char_of_byte bs).

(** [strlen]: the number of bytes before the terminating NUL. *)
Definition strlen (s : string) : Z := Z.of_nat (String.length s).

(** What a [char *] pointing at [bs] denotes: the bytes before the
    first NUL. *)
Fixpoint c_string (bs : list byte) : list byte :=
  match bs with
  | [] => []
  | b :: r => if b =? 0 then [] else b :: c_string r
  end.

(** [strcmp(a, b) == 0]. *)
Definition streq (a b : string) : bool := String.eqb a b.

(** ** Little-endian integers *)

Fixpoint le_bytes (n : nat) (v : Z) : list byte :=
  match n with
  | O => []
  | S n' => v mod 256 :: le_bytes n' (v / 256)
  end.

Fixpoint le_value (bs : list byte) : Z :=
  match bs with
  | [] => 0
  | b :: r => b + 256 * le_value r
  end.

(** ** UTF-16LE and UTF-8 *)

(** Modelled from the spec: the conversion routines behind
    [buffer_get_utf16le] and [buffer_put_utf16le] live in [bufparser.h],
    which is not part of the sources at hand.  The spec has the name
    "UTF-16LE on the wire, decoded to native text", with decoding failing
    on an "invalid UTF-16 sequence, e.g. unpaired surrogate"; native text
    is taken to be UTF-8, the byte string [strlen] is applied to. *)
Fixpoint u16le_units (bs : list byte) : list Z :=
  match bs with
  | lo :: hi :: r => (lo + 256 * hi) :: u16le_units r
  | _ => []
  end.

Definition u16le_bytes (u : Z) : list byte := [u mod 256; u / 256].

Fixpoint utf16_decode (us : list Z) : option (list Z) :=
  match us with
  | [] => Some []
  | u :: r =>
      if (u <? 0xD800) || (0xDFFF <? u) then
        option_map (cons u) (utf16_decode r)
      else if u <? 0xDC00 then
        match r with
        | lo :: r' =>
            if (0xDC00 <=? lo) && (lo <=? 0xDFFF) then
              option_map
                (cons (0x10000 + (u - 0xD800) * 1024 + (lo - 0xDC00)))
                (utf16_decode r')
            else None
        | [] => None
        end
      else None
  end.

Definition utf16_encode_cp (cp : Z) : list Z :=
  if cp <? 0x10000 then [cp]
  else [0xD800 + (cp - 0x10000) / 1024; 0xDC00 + (cp - 0x10000) mod 1024].

Definition utf8_encode_cp (cp : Z) : list byte :=
  if cp <? 0x80 then [cp]
  else if cp <? 0x800 then [0xC0 + cp / 64; 0x80 + cp mod 64]
  else if cp <? 0x10000 then
    [0xE0 + cp / 4096; 0x80 + (cp / 64) mod 64; 0x80 + cp mod 64]
  else
    [0xF0 + cp / 262144; 0x80 + (cp / 4096) mod 64;
     0x80 + (cp / 64) mod 64; 0x80 + cp mod 64].

Definition utf8_cont (b : byte) : bool := (0x80 <=? b) && (b <? 0xC0).

Fixpoint utf8_decode (bs : list byte) : option (list Z) :=
  match bs with
  | [] => Some []
  | b0 :: r =>
      if b0 <? 0x80 then option_map (cons b0) (utf8_decode r)
      else if b0 <? 0xC2 then None
      else if b0 <? 0xE0 then
        match r with
        | b1 :: r1 =>
            if utf8_cont b1 then
              option_map (cons ((b0 - 0xC0) * 64 + (b1 - 0x80)))
                         (utf8_decode r1)
            else None
        | _ => None
        end
      else if b0 <? 0xF0 then
        match r with
        | b1 :: b2 :: r2 =>
            let cp := (b0 - 0xE0) * 4096 + (b1 - 0x80) * 64 + (b2 - 0x80) in
            if utf8_cont b1 && utf8_cont b2 && (0x800 <=? cp)
               && negb ((0xD800 <=? cp) && (cp <=? 0xDFFF)) then
              option_map (cons cp) (utf8_decode r2)
            else None
        | _ => None
        end
      else if b0 <? 0xF5 then
        match r with
        | b1 :: b2 :: b3 :: r3 =>
            let cp := (b0 - 0xF0) * 262144 + (b1 - 0x80) * 4096
                      + (b2 - 0x80) * 64 + (b3 - 0x80) in
            if utf8_cont b1 && utf8_cont b2 && utf8_cont b3
               && (0x10000 <=? cp) && (cp <=? 0x10FFFF) then
              option_map (cons cp) (utf8_decode r3)
            else None
        | _ => None
        end
      else None
  end.

(** UTF-16LE bytes to the C string holding the UTF-8 text. *)
Definition convert_from_utf16le (bs : list byte) : option string :=
  match utf16_decode (u16le_units bs) with
  | Some cps => Some (string_of_bytes (c_string (flat_map utf8_encode_cp cps)))
  | None => None
  end.

(** A C string holding UTF-8 text to UTF-16LE bytes. *)
Definition convert_to_utf16le (s : string) : option (list byte) :=
  match utf8_decode (bytes_of_string s) with
  | Some cps => Some (flat_map u16le_bytes (flat_map utf16_encode_cp cps))
  | None => None
  end.

(** ** Buffers *)

(** Modelled from the spec: [buffer_t] and its accessors come from
    [bufparser.h], which is not part of the sources at hand.  A buffer
    is a byte cursor: the bytes written so far, a read position into
    them and a capacity.  A read or a write that does not fit fails and
    leaves the buffer alone ("the cursor is exhausted before any field is
    fully read"). *)
Record buffer_t := mk_buffer {
  buf_data : list byte;
  buf_rpos : nat;
  buf_size : Z
}.

Definition buffer_alloc_write (size : Z) : buffer_t :=
  mk_buffer [] 0 size.

(** A buffer holding [bs], ready to be read from the start. *)
Definition buffer_of_bytes (bs : list byte) : buffer_t :=
  mk_buffer bs 0 (Z.of_nat (List.length bs)).

Definition buffer_read_pointer (bp : buffer_t) : list byte :=
  skipn (buf_rpos bp) (buf_data bp).

Definition buffer_available (bp : buffer_t) : Z :=
  Z.of_nat (List.length (buffer_read_pointer bp)).

Definition buffer_tailroom (bp : buffer_t) : Z :=
  buf_size bp - Z.of_nat (List.length (buf_data bp)).

Definition buffer_put (bp : buffer_t) (p : list byte) (len : Z)
  : option buffer_t :=
  if len <=? buffer_tailroom bp then
    Some (mk_buffer (buf_data bp ++ firstn (Z.to_nat len) p)
                    (buf_rpos bp) (buf_size bp))
  else None.

Definition buffer_get (bp : buffer_t) (len : Z)
  : option (list byte * buffer_t) :=
  if len <=? buffer_available bp then
    Some (firstn (Z.to_nat len) (buffer_read_pointer bp),
          mk_buffer (buf_data bp) (buf_rpos bp + Z.to_nat len) (buf_size bp))
  else None.

Definition buffer_put_u64le (bp : buffer_t) (v : Z) : option buffer_t :=
  buffer_put bp (le_bytes 8 v) 8.

Definition buffer_get_u64le (bp : buffer_t) : option (Z * buffer_t) :=
  match buffer_get bp 8 with
  | Some (bs, bp') => Some (le_value bs, bp')
  | None => None
  end.

(** Reads [len] UTF-16 code units and hands back the decoded name. *)
Definition buffer_get_utf16le (bp : buffer_t) (len : Z)
  : option (string * buffer_t) :=
  match buffer_get bp (2 * len) with
  | Some (bs, bp') =>
      match convert_from_utf16le bs with
      | Some s => Some (s, bp')
      | None => None
      end
  | None => None
  end.

(** Writes the UTF-16LE form of [s]; the second component is the number
    of bytes written (the [size_ret_p] out-parameter). *)
Definition buffer_put_utf16le (bp : buffer_t) (s : string)
  : option (buffer_t * Z) :=
  match convert_to_utf16le s with
  | Some bs =>
      match buffer_put bp bs (Z.of_nat (List.length bs)) with
      | Some bp' => Some (bp', Z.of_nat (List.length bs))
      | None => None
      end
  | None => None
  end.

(** ** Process state, diagnostics and fatal errors *)

(** A line handed to [debug] or to [infomsg].  Whether the line reaches
    the terminal depends on the verbosity; the trace records the call. *)
Inductive msg :=
| Debug (s : string)
| Info (s : string).

(** The state outside the arguments: the [static char varname[256]] of
    [tpm_efi_variable_event_extract_full_varname] and the diagnostic
    output so far. *)
Record world := mk_world {
  varname : string;
  console : list msg
}.

(** A call either returns or ends the process through [fatal]. *)
Inductive outcome (A : Type) :=
| Ret (a : A)
| Fatal (m : string).

Arguments Ret {A} a.
Arguments Fatal {A} m.

Definition M (A : Type) : Type := world -> outcome A * world.

Definition ret {A} (a : A) : M A := fun w => (Ret a, w).

Definition bind {A B} (m : M A) (f : A -> M B) : M B :=
  fun w =>
    match m w with
    | (Ret a, w') => f a w'
    | (Fatal s, w') => (Fatal s, w')
    end.

Notation "x <- m ;; k" := (bind m (fun x => k))
  (at level 61, m at next level, right associativity).
Notation "m ;;; k" := (bind m (fun _ => k))
  (at level 61, right associativity).

Definition emit (m : msg) (w : world) : world :=
  mk_world (varname w) (console w ++ [m]).

Definition debug (s : string) : M unit := fun w => (Ret tt, emit (Debug s) w).

Definition infomsg (s : string) : M unit := fun w => (Ret tt, emit (Info s) w).

Definition fatal {A} (s : string) : M A := fun w => (Fatal s, w).

(** A [const char *] as the code passes it around: NULL, the address of
    the static [varname] array, or a string owned by someone else. *)
Inductive char_ptr :=
| NULL_str
| static_varname
| const_str (s : string).

Definition deref (p : char_ptr) (w : world) : string :=
  match p with
  | NULL_str => EmptyString
  | static_varname => varname w
  | const_str s => s
  end.

Definition load (p : char_ptr) : M string := fun w => (Ret (deref p w), w).

(** [snprintf(buf, size, ...)] keeps at most [size - 1] characters. *)
Definition snprintf (size : nat) (s : string) : string :=
  substring 0 (size - 1) s.

Definition store_varname (s : string) : M unit :=
  fun w => (Ret tt, mk_world (snprintf 256 s) (console w)).

Definition nl : string := String (ascii_of_nat 10) EmptyString.

(** A [buffer_t *] as [efi_variable_authority_get_record] returns it. *)
Inductive buffer_ptr :=
| NULL
| EFI_BSA_NOT_FOUND
| Buf (b : buffer_t).

Definition ptr_of_option (o : option buffer_t) : buffer_ptr :=
  match o with
  | Some b => Buf b
  | None => NULL
  end.

(** ** Events *)

Record tpm_algo_info_t := mk_algo {
  openssl_name : string
}.

(** The fields of [tpm_event_t] the code reads; [D] is the digest type. *)
Record tpm_event_t (D : Type) := mk_event {
  event_type : Z;
  event_size : Z;
  event_data : list byte;
  pcr_values : list D
}.

Arguments mk_event {D}.
Arguments event_type {D}.
Arguments event_size {D}.
Arguments event_data {D}.
Arguments pcr_values {D}.

(** [parsed->efi_variable_event]. *)
Record tpm_parsed_event_t := mk_parsed {
  variable_guid : list byte;
  variable_name : string;
  data : list byte;
  len : Z
}.

Record tpm_event_log_rehash_ctx_t (I : Type) := mk_ctx {
  algo : tpm_algo_info_t;
  next_stage_img : option I
}.

Arguments mk_ctx {I}.
Arguments algo {I}.
Arguments next_stage_img {I}.

(** ** The collaborators *)

(** What the file takes from the rest of the program: digests, the
    event log, the runtime variable store, Authenticode and the
    signature databases, the shim aliases and the GUID printer. *)
Class Collaborators := {
  tpm_evdigest_t : Type;
  parsed_cert_t : Type;
  image_t : Type;
  TPM2_EFI_VARIABLE_AUTHORITY : Z;
  opt_debug : Z;
  digest_compute : tpm_algo_info_t -> list byte -> Z -> tpm_evdigest_t;
  digest_equal : tpm_evdigest_t -> tpm_evdigest_t -> bool;
  tpm_event_get_digest :
    tpm_event_t tpm_evdigest_t -> string -> option tpm_evdigest_t;
  runtime_read_efi_variable : string -> option buffer_t;
  authenticode_get_signer : image_t -> option parsed_cert_t;
  parsed_cert_subject : parsed_cert_t -> string;
  efi_application_locate_authority_record :
    string -> parsed_cert_t -> option buffer_t;
  shim_variable_get_full_rtname : string -> option string;
  tpm_event_decode_uuid : list byte -> string;
  hexdump : list byte -> Z -> list string
}.

(** ** The functions of [efi-variable.c] *)

Section EfiVariable.

Context `{Collaborators}.

Local Open Scope string_scope.
Local Open Scope Z_scope.

Local Notation "' p <-? m ; k" :=
  (match m with
   | Some p => k
   | None => None
   end)
  (at level 61, p pattern, m at next level, right associativity).

(** [false] is [None]; [true] comes with the buffer as written. *)
Definition __tpm_event_marshal_efi_variable
    (bp : buffer_t) (parsed : tpm_parsed_event_t)
    (raw_data : list byte) (raw_data_len : Z) : option buffer_t :=
  ' bp <-? buffer_put bp (variable_guid parsed) 16;
  let var_len := wrap32 (strlen (variable_name parsed)) in
  ' bp <-? buffer_put_u64le bp var_len;
  ' bp <-? buffer_put_u64le bp raw_data_len;
  ' (bp, name_len) <-? buffer_put_utf16le bp (variable_name parsed);
  let name_len := wrap32 name_len in
  ' bp <-? buffer_put bp raw_data raw_data_len;
  if negb (name_len =? wrap32 (2 * var_len)) then None
  else Some bp.

Definition __tpm_event_efi_variable_build_event
    (parsed : tpm_parsed_event_t) (raw_data : list byte) (raw_data_len : Z)
  : M (option buffer_t) :=
  let bp := buffer_alloc_write
              (16 + 8 + 8 + 2 * strlen (variable_name parsed) + raw_data_len) in
  match __tpm_event_marshal_efi_variable bp parsed raw_data raw_data_len with
  | None =>
      debug ("Failed to marshal EFI variable " ++ variable_name parsed ++ nl) ;;;
      ret None
  | Some bp => ret (Some bp)
  end.

Definition HASH_STRATEGY_EVENT : Z := 0.
Definition HASH_STRATEGY_DATA : Z := 1.

(** The [strcmp] chain at the head of
    [efi_variable_authority_get_record]: the value it leaves in
    [db_name], or [None] on the branch that reads the variable as-is. *)
Definition authority_db_name (var_short_name : string) : option string :=
  if streq var_short_name "Shim" then Some "shim-vendor-cert"
  else if streq var_short_name "db" then Some "db"
  else if streq var_short_name "MokListRT" then Some "MokList"
  else None.

Definition efi_variable_authority_get_record
    (parsed : tpm_parsed_event_t) (var_name : char_ptr)
    (ctx : tpm_event_log_rehash_ctx_t image_t) : M buffer_ptr :=
  let var_short_name := variable_name parsed in
  match authority_db_name var_short_name with
  | None =>
      (* Read as-is *)
      name <- load var_name ;;
      ret (ptr_of_option (runtime_read_efi_variable name))
  | Some db_name =>
      match next_stage_img ctx with
      | None =>
          infomsg ("Unable to verify signature of a boot service; "
                   ++ "probably a driver residing in ROM." ++ nl) ;;;
          ret EFI_BSA_NOT_FOUND
      | Some img =>
          match authenticode_get_signer img with
          | None => ret NULL
          | Some signer =>
              debug ("Next stage application was signed by "
                     ++ parsed_cert_subject signer ++ nl) ;;;
              ret (ptr_of_option
                     (efi_application_locate_authority_record db_name signer))
          end
      end
  end.

Definition __tpm_event_efi_variable_detect_hash_strategy
    (ev : tpm_event_t tpm_evdigest_t) (parsed : tpm_parsed_event_t)
    (algo : tpm_algo_info_t) : M Z :=
  match tpm_event_get_digest ev (openssl_name algo) with
  | None =>
      debug ("Event does not provide a digest for algorithm "
             ++ openssl_name algo ++ nl) ;;;
      ret (-1)
  | Some old_md =>
      let md := digest_compute algo (event_data ev) (event_size ev) in
      if digest_equal old_md md then
        debug ("  Firmware hashed entire event data" ++ nl) ;;;
        ret HASH_STRATEGY_EVENT
      else
        let md := digest_compute algo (data parsed) (len parsed) in
        if digest_equal old_md md then
          debug ("  Firmware hashed variable data" ++ nl) ;;;
          ret HASH_STRATEGY_DATA
        else
          debug ("  I'm lost." ++ nl) ;;;
          ret HASH_STRATEGY_DATA (* no idea what would be right *)
  end.

Definition tpm_efi_variable_event_extract_full_varname
    (parsed : tpm_parsed_event_t) : M char_ptr :=
  match shim_variable_get_full_rtname (variable_name parsed) with
  | Some shim_rtname => ret (const_str shim_rtname)
  | None =>
      store_varname (variable_name parsed ++ "-"
                     ++ tpm_event_decode_uuid (variable_guid parsed)) ;;;
      ret static_varname
  end.

Fixpoint debug_lines (ls : list string) : M unit :=
  match ls with
  | [] => ret tt
  | l :: r => debug l ;;; debug_lines r
  end.

(** The result is the returned [const tpm_evdigest_t *]: [None] is
    NULL. *)
Definition __tpm_event_efi_variable_rehash
    (ev : tpm_event_t tpm_evdigest_t) (parsed : tpm_parsed_event_t)
    (ctx : tpm_event_log_rehash_ctx_t image_t)
  : M (option tpm_evdigest_t) :=
  let algo := algo ctx in
  var_name <- tpm_efi_variable_event_extract_full_varname parsed ;;
  match var_name with
  | NULL_str =>
      fatal ("Unable to extract EFI variable name from EFI_VARIABLE event" ++ nl)
  | _ =>
  hash_strategy <- __tpm_event_efi_variable_detect_hash_strategy ev parsed algo ;;
  if hash_strategy <? 0 then ret None
  else
    file_data <-
      (if event_type ev =? TPM2_EFI_VARIABLE_AUTHORITY then
         efi_variable_authority_get_record parsed var_name ctx
       else
         name <- load var_name ;;
         ret (ptr_of_option (runtime_read_efi_variable name))) ;;
    match file_data with
    | EFI_BSA_NOT_FOUND =>
        (* pretend these cannot be changed from within the running system *)
        ret (tpm_event_get_digest ev (openssl_name algo))
    | NULL => ret None
    | Buf file_data =>
        data_to_hash <-
          (if hash_strategy =? HASH_STRATEGY_EVENT then
             event_data <- __tpm_event_efi_variable_build_event parsed
                             (buffer_read_pointer file_data)
                             (buffer_available file_data) ;;
             match event_data with
             | None => fatal ("Unable to re-marshal EFI variable for hashing" ++ nl)
             | Some event_data =>
                 (if opt_debug >? 1 then
                    name <- load var_name ;;
                    debug ("  Remarshaled event for EFI variable "
                           ++ name ++ ":" ++ nl) ;;;
                    debug_lines (hexdump (buffer_read_pointer event_data)
                                         (buffer_available event_data))
                  else ret tt) ;;;
                 ret event_data
             end
           else ret file_data) ;;
        ret (Some (digest_compute algo
                     (buffer_read_pointer data_to_hash)
                     (buffer_available data_to_hash)))
    end
  end.

(** [false] is [None]; on success the filled-in [parsed] comes back with
    the advanced cursor.  The three callbacks stored into [parsed] are
    the functions above and carry no data. *)
Definition __tpm_event_parse_efi_variable
    (ev : tpm_event_t tpm_evdigest_t) (bp : buffer_t)
  : option (tpm_parsed_event_t * buffer_t) :=
  ' (guid, bp) <-? buffer_get bp 16;
  ' (name_len, bp) <-? buffer_get_u64le bp;
  ' (data_len, bp) <-? buffer_get_u64le bp;
  ' (name, bp) <-? buffer_get_utf16le bp name_len;
  ' (payload, bp) <-? buffer_get bp data_len;
  Some (mk_parsed guid name payload (wrap32 data_len), bp).

(** ** What the calls denote *)

(** The string behind the pointer that
    [tpm_efi_variable_event_extract_full_varname] returns, read right
    after the call. *)
Definition resolved_full_name (parsed : tpm_parsed_event_t) : string :=
  match shim_variable_get_full_rtname (variable_name parsed) with
  | Some shim_rtname => shim_rtname
  | None =>
      snprintf 256 (variable_name parsed ++ "-"
                    ++ tpm_event_decode_uuid (variable_guid parsed))
  end.

(** The pointer [efi_variable_authority_get_record] returns when
    [var_name] points at [name]. *)
Definition authority_record
    (parsed : tpm_parsed_event_t) (name : string)
    (ctx : tpm_event_log_rehash_ctx_t image_t) : buffer_ptr :=
  match authority_db_name (variable_name parsed) with
  | None => ptr_of_option (runtime_read_efi_variable name)
  | Some db_name =>
      match next_stage_img ctx with
      | None => EFI_BSA_NOT_FOUND
      | Some img =>
          match authenticode_get_signer img with
          | None => NULL
          | Some signer =>
              ptr_of_option
                (efi_application_locate_authority_record db_name signer)
          end
      end
  end.

(** The value [__tpm_event_efi_variable_rehash] holds in [file_data]
    once the content of the variable has been looked up. *)
Definition resolved_content
    (ev : tpm_event_t tpm_evdigest_t) (parsed : tpm_parsed_event_t)
    (ctx : tpm_event_log_rehash_ctx_t image_t) : buffer_ptr :=
  if event_type ev =? TPM2_EFI_VARIABLE_AUTHORITY then
    authority_record parsed (resolved_full_name parsed) ctx
  else ptr_of_option (runtime_read_efi_variable (resolved_full_name parsed)).

(** The value [__tpm_event_efi_variable_detect_hash_strategy] returns. *)
Definition detected_strategy
    (ev : tpm_event_t tpm_evdigest_t) (parsed : tpm_parsed_event_t)
    (a : tpm_algo_info_t) : Z :=
  match tpm_event_get_digest ev (openssl_name a) with
  | None => -1
  | Some old_md =>
      if digest_equal old_md
           (digest_compute a (event_data ev) (event_size ev))
      then HASH_STRATEGY_EVENT
      else HASH_STRATEGY_DATA
  end.

(** The outcome of [__tpm_event_efi_variable_rehash] as a function of
    its arguments alone ([rehash_outcome] below shows that it is). *)
Definition rehash_result
    (ev : tpm_event_t tpm_evdigest_t) (parsed : tpm_parsed_event_t)
    (ctx : tpm_event_log_rehash_ctx_t image_t)
  : outcome (option tpm_evdigest_t) :=
  let a := algo ctx in
  let strategy := detected_strategy ev parsed a in
  if strategy <? 0 then Ret None
  else
    match resolved_content ev parsed ctx with
    | EFI_BSA_NOT_FOUND => Ret (tpm_event_get_digest ev (openssl_name a))
    | NULL => Ret None
    | Buf file_data =>
        let raw := buffer_read_pointer file_data in
        let raw_len := buffer_available file_data in
        if strategy =? HASH_STRATEGY_EVENT then
          match __tpm_event_marshal_efi_variable
                  (buffer_alloc_write
                     (16 + 8 + 8 + 2 * strlen (variable_name parsed) + raw_len))
                  parsed raw raw_len with
          | None => Fatal ("Unable to re-marshal EFI variable for hashing" ++ nl)
          | Some event_data =>
              Ret (Some (digest_compute a (buffer_read_pointer event_data)
                                          (buffer_available event_data)))
          end
        else Ret (Some (digest_compute a raw raw_len))
    end.

(** The messages the claims refer to. *)
Definition msg_hashed_event : msg :=
  Debug ("  Firmware hashed entire event data" ++ nl).
Definition msg_hashed_data : msg :=
  Debug ("  Firmware hashed variable data" ++ nl).
Definition msg_undetermined : msg := Debug ("  I'm lost." ++ nl).
Definition msg_no_digest (a : tpm_algo_info_t) : msg :=
  Debug ("Event does not provide a digest for algorithm "
         ++ openssl_name a ++ nl).
Definition msg_marshal_failed (parsed : tpm_parsed_event_t) : msg :=
  Debug ("Failed to marshal EFI variable " ++ variable_name parsed ++ nl).
Definition remarshal_fatal : string :=
  "Unable to re-marshal EFI variable for hashing" ++ nl.

End EfiVariable.

(** ** Wire layout *)

(** The EFI_VARIABLE event body as the spec's table lays it out: GUID,
    name length in UTF-16 code units, data length in bytes, the name in
    UTF-16LE and the data.  [units] are the code units of the name. *)
Definition efi_variable_wire
    (guid : list byte) (units : list Z) (payload : list byte) : list byte :=
  guid
  ++ le_bytes 8 (Z.of_nat (List.length units))
  ++ le_bytes 8 (Z.of_nat (List.length payload))
  ++ flat_map u16le_bytes units
  ++ payload.

(** A code unit that is one non-NUL ASCII character. *)
Definition ascii_unit (u : Z) : Prop := 1 <= u < 128.

(** ** A sample platform *)

(** Modelled from the spec: [tpm_event_decode_uuid] is defined outside
    the sources at hand; the spec wants the GUID "rendered in its
    standard dashed hexadecimal text form", which for an EFI GUID reads
    the first three fields little-endian. *)
Definition hex_digit (n : Z) : ascii :=
  nth (Z.to_nat n) (list_ascii_of_string "0123456789abcdef") "0"%char.

Definition hex_byte (b : byte) : string :=
  String (hex_digit (b / 16)) (String (hex_digit (b mod 16)) EmptyString).

Definition decode_uuid_text (g : list byte) : string :=
  let h i := hex_byte (nth i g 0) in
  (h 3 ++ h 2 ++ h 1 ++ h 0 ++ "-" ++ h 5 ++ h 4 ++ "-" ++ h 7 ++ h 6
   ++ "-" ++ h 8 ++ h 9 ++ "-"
   ++ h 10 ++ h 11 ++ h 12 ++ h 13 ++ h 14 ++ h 15)%string%nat.

(** A stand-in digest for the examples: a 16-bit byte sum, tagged with
    the algorithm name. *)
Definition sum_digest (a : tpm_algo_info_t) (p : list byte) (n : Z)
  : string * Z :=
  (openssl_name a, fold_left Z.add (firstn (Z.to_nat n) p) 0 mod 65536).

Definition sum_digest_equal (x y : string * Z) : bool :=
  String.eqb (fst x) (fst y) && (snd x =? snd y).

Definition find_digest (ev : tpm_event_t (string * Z)) (name : string)
  : option (string * Z) :=
  find (fun d => String.eqb (fst d) name) (pcr_values ev).

Definition assoc {V} (k : string) (l : list (string * V)) : option V :=
  match find (fun e => String.eqb (fst e) k) l with
  | Some e => Some (snd e)
  | None => None
  end.

Definition global_guid : list byte :=
  [0x61; 0xdf; 0xe4; 0x8b; 0xca; 0x93; 0xd2; 0x11;
   0xaa; 0x0d; 0x00; 0xe0; 0x98; 0x03; 0x2b; 0x8c].

Definition security_db_guid : list byte :=
  [0xcb; 0xb2; 0x19; 0xd7; 0x3a; 0x3d; 0x96; 0x45;
   0xa3; 0xbc; 0xda; 0xd0; 0x0e; 0x67; 0x65; 0x6f].

(** The name U+20AC (the euro sign) as UTF-8. *)
Definition euro_name : string := string_of_bytes [0xE2; 0x82; 0xAC].

(** The variables readable at run time. *)
Definition sample_efivars : list (string * list byte) :=
  [ ("SecureBoot-8be4df61-93ca-11d2-aa0d-00e098032b8c"%string, [1]);
    ("SbatLevelRT-605dab50-e046-4300-abb6-3dd810dd8b23"%string, [0x73; 0x62; 0x61; 0x74]);
    ((euro_name ++ "-8be4df61-93ca-11d2-aa0d-00e098032b8c")%string, [7; 7]) ].

(** The signature database records, by database and signer subject. *)
Definition sample_authorities : list (string * list byte) :=
  [ ("db/CN=SUSE Linux Enterprise Secure Boot CA"%string, [0x30; 0x82; 0x04; 0x4c]);
    ("shim-vendor-cert/CN=SUSE Linux Enterprise Secure Boot CA"%string, [0x30; 0x82]) ].

(** A boot image is its list of bytes; the sample signer lookup knows
    one signed image. *)
Definition sample_signer (img : list byte) : option string :=
  match img with
  | 0x4d :: 0x5a :: 1 :: _ => Some "CN=SUSE Linux Enterprise Secure Boot CA"%string
  | 0x4d :: 0x5a :: 2 :: _ => Some "CN=Unknown Vendor"%string
  | _ => None
  end.

Definition sample_platform : Collaborators := {|
  tpm_evdigest_t := string * Z;
  parsed_cert_t := string;
  image_t := list byte;
  TPM2_EFI_VARIABLE_AUTHORITY := 0x800000E0;
  opt_debug := 0;
  digest_compute := sum_digest;
  digest_equal := sum_digest_equal;
  tpm_event_get_digest := find_digest;
  runtime_read_efi_variable :=
    fun name => option_map buffer_of_bytes (assoc name sample_efivars);
  authenticode_get_signer := sample_signer;
  parsed_cert_subject := fun subject => subject;
  efi_application_locate_authority_record :=
    fun db_name signer =>
      option_map buffer_of_bytes
        (assoc (db_name ++ "/" ++ signer)%string sample_authorities);
  shim_variable_get_full_rtname :=
    fun name =>
      if String.eqb name "SbatLevel"
      then Some "SbatLevelRT-605dab50-e046-4300-abb6-3dd810dd8b23"%string
      else None;
  tpm_event_decode_uuid := decode_uuid_text;
  hexdump := fun _ _ => []
|}.

Definition sha256 : tpm_algo_info_t := mk_algo "sha256".

Definition w0 : world := mk_world EmptyString [].

(** *** Sample events *)

Definition EV_EFI_VARIABLE_DRIVER_CONFIG : Z := 0x80000001.
Definition EV_EFI_VARIABLE_BOOT : Z := 0x80000002.
Definition EV_EFI_VARIABLE_AUTHORITY : Z := 0x800000E0.

Definition sample_event (type : Z) (raw : list byte) (digests : list (string * Z))
  : tpm_event_t (string * Z) :=
  mk_event type (Z.of_nat (List.length raw)) raw digests.

Definition whole_digest (raw : list byte) : string * Z :=
  sum_digest sha256 raw (Z.of_nat (List.length raw)).

(** SecureBoot = 1, measured by a firmware that hashes the whole event. *)
Definition secureboot_wire : list byte :=
  efi_variable_wire global_guid (bytes_of_string "SecureBoot") [1].
Definition secureboot_parsed : tpm_parsed_event_t :=
  mk_parsed global_guid "SecureBoot" [1] 1.
Definition secureboot_event : tpm_event_t (string * Z) :=
  sample_event EV_EFI_VARIABLE_DRIVER_CONFIG secureboot_wire
               [whole_digest secureboot_wire].

(** A [db] authority event, measured by a firmware that hashes the data. *)
Definition db_payload : list byte := [0x30; 0x82; 0x03; 0x11].
Definition db_wire : list byte :=
  efi_variable_wire security_db_guid (bytes_of_string "db") db_payload.
Definition db_parsed : tpm_parsed_event_t :=
  mk_parsed security_db_guid "db" db_payload 4.
Definition db_event : tpm_event_t (string * Z) :=
  sample_event EV_EFI_VARIABLE_AUTHORITY db_wire [whole_digest db_payload].

(** The same event in a log that carries SHA-1 digests only. *)
Definition db_event_sha1_only : tpm_event_t (string * Z) :=
  sample_event EV_EFI_VARIABLE_AUTHORITY db_wire [("sha1"%string, 454)].

(** A variable named with the euro sign, whole event hashed. *)
Definition euro_wire : list byte :=
  efi_variable_wire global_guid [0x20AC] [7; 7].
Definition euro_parsed : tpm_parsed_event_t :=
  mk_parsed global_guid euro_name [7; 7] 2.
Definition euro_event : tpm_event_t (string * Z) :=
  sample_event EV_EFI_VARIABLE_BOOT euro_wire [whole_digest euro_wire].

(** A variable that cannot be read back at run time. *)
Definition bootorder_parsed : tpm_parsed_event_t :=
  mk_parsed global_guid "BootOrder" [1; 0] 2.
Definition bootorder_event : tpm_event_t (string * Z) :=
  sample_event EV_EFI_VARIABLE_BOOT
    (efi_variable_wire global_guid (bytes_of_string "BootOrder") [1; 0])
    [whole_digest [1; 0]].

(** An event whose recorded digest fits both conventions. *)
Definition ambiguous_parsed : tpm_parsed_event_t :=
  mk_parsed global_guid "Boot0001" [1; 2] 2.
Definition ambiguous_event : tpm_event_t (string * Z) :=
  sample_event EV_EFI_VARIABLE_BOOT [2; 1] [("sha256"%string, 3)].

(** An event whose recorded digest fits neither. *)
Definition odd_event : tpm_event_t (string * Z) :=
  sample_event EV_EFI_VARIABLE_BOOT [2; 1] [("sha256"%string, 99)].

(** SbatLevel, which the shim loader mirrors under a runtime name. *)
Definition shim_lock_guid : list byte :=
  [0x50; 0xab; 0x5d; 0x60; 0x46; 0xe0; 0x00; 0x43;
   0xab; 0xb6; 0x3d; 0xd8; 0x10; 0xdd; 0x8b; 0x23].
Definition sbat_parsed : tpm_parsed_event_t :=
  mk_parsed shim_lock_guid "SbatLevel" [0x73; 0x62; 0x61; 0x74] 4.
Definition sbat_event : tpm_event_t (string * Z) :=
  sample_event EV_EFI_VARIABLE_AUTHORITY
    (efi_variable_wire shim_lock_guid (bytes_of_string "SbatLevel")
                       [0x73; 0x62; 0x61; 0x74])
    [whole_digest [0x73; 0x62; 0x61; 0x74]].

(** A name of 250 letters. *)
Definition long_parsed : tpm_parsed_event_t :=
  mk_parsed global_guid (string_of_list_ascii (repeat "a"%char 250)) [] 0.

Definition signed_image : list byte := [0x4d; 0x5a; 1].
Definition foreign_image : list byte := [0x4d; 0x5a; 2].
Definition unsigned_image : list byte := [0x4d; 0x5a; 0].

Definition ctx_with (img : option (list byte))
  : tpm_event_log_rehash_ctx_t (list byte) := mk_ctx sha256 img.

(** [w'] comes from [w] by printing: the static name buffer is the same
    and the output has grown at its end. *)
Definition printed (w w' : world) : Prop :=
  varname w' = varname w /\ exists lines, console w' = console w ++ lines.

(** The code units of the name SecureBoot. *)
Definition secureboot_units : list Z := bytes_of_string "SecureBoot".

(** ** Printing and releasing an event *)

From Stdlib Require Import DecimalString.

(** [%u] applied to an [unsigned int]. *)
Definition format_u (z : Z) : string :=
  NilEmpty.string_of_uint (N.to_uint (Z.to_N (wrap32 z))).

Section EfiVariablePrint.

Context `{Collaborators}.

Local Open Scope string_scope.

(** Nothing of the parsed event is released by hand. *)
Definition __tpm_event_efi_variable_destroy (parsed : tpm_parsed_event_t)
  : M unit := ret tt.

(** [print_fn] is the printer the caller passes in; it receives the
    formatted line. *)
Definition __tpm_event_efi_variable_print
    (parsed : tpm_parsed_event_t) (print_fn : string -> M unit) : M unit :=
  full_varname <- tpm_efi_variable_event_extract_full_varname parsed ;;
  name <- load full_varname ;;
  print_fn ("  --> EFI variable " ++ name ++ ": "
            ++ format_u (len parsed) ++ " bytes of data" ++ nl).

End EfiVariablePrint.

(** * Properties *)

Section Properties.

Context `{Collaborators}.

Local Open Scope string_scope.
Local Open Scope Z_scope.

(** ** Running the monad *)

Lemma bind_ret {A B} (m : M A) (f : A -> M B) (w w' : world) (a : A) :
  m w = (Ret a, w') -> bind m f w = f a w'.
Proof. intros E. unfold bind. now rewrite E. Qed.

Lemma bind_fatal {A B} (m : M A) (f : A -> M B) (w w' : world) (s : string) :
  m w = (Fatal s, w') -> bind m f w = (Fatal s, w').
Proof. intros E. unfold bind. now rewrite E. Qed.

Lemma debug_lines_returns (ls : list string) (w : world) :
  exists w', debug_lines ls w = (Ret tt, w') /\ varname w' = varname w.
Proof.
  revert w. induction ls as [|l r IH]; intros w; simpl.
  - exists w. split; reflexivity.
  - destruct (IH (emit (Debug l) w)) as (w' & E & V).
    exists w'. split; [|exact V].
    unfold bind, debug. exact E.
Qed.

(** ** The full name *)

Lemma extract_full_varname_run (parsed : tpm_parsed_event_t) (w : world) :
  exists p w',
    tpm_efi_variable_event_extract_full_varname parsed w = (Ret p, w')
    /\ p <> NULL_str
    /\ console w' = console w
    /\ (forall w'', varname w'' = varname w' ->
                    deref p w'' = resolved_full_name parsed).
Proof.
  unfold tpm_efi_variable_event_extract_full_varname, resolved_full_name.
  destruct (shim_variable_get_full_rtname (variable_name parsed)) as [a|].
  - exists (const_str a), w. repeat split; try reflexivity. discriminate.
  - eexists static_varname, _. unfold bind, store_varname, ret.
    repeat split; try reflexivity; try discriminate.
    intros w'' E. simpl in *. exact E.
Qed.

(** ** The authority record *)

Lemma authority_get_record_run
    (parsed : tpm_parsed_event_t) (p : char_ptr)
    (ctx : tpm_event_log_rehash_ctx_t image_t) (w : world) :
  exists w',
    efi_variable_authority_get_record parsed p ctx w
    = (Ret (authority_record parsed (deref p w) ctx), w')
    /\ varname w' = varname w.
Proof.
  unfold efi_variable_authority_get_record, authority_record.
  destruct (authority_db_name (variable_name parsed)) as [db|].
  - destruct (next_stage_img ctx) as [img|].
    + destruct (authenticode_get_signer img) as [signer|].
      * eexists. unfold bind, debug, ret. split; reflexivity.
      * exists w. split; reflexivity.
    + eexists. unfold bind, infomsg, ret. split; reflexivity.
  - exists w. split; reflexivity.
Qed.

(** ** Strategy detection *)

Lemma detect_hash_strategy_run
    (ev : tpm_event_t tpm_evdigest_t) (parsed : tpm_parsed_event_t)
    (a : tpm_algo_info_t) (w : world) :
  exists w',
    __tpm_event_efi_variable_detect_hash_strategy ev parsed a w
    = (Ret (detected_strategy ev parsed a), w')
    /\ varname w' = varname w.
Proof.
  unfold __tpm_event_efi_variable_detect_hash_strategy, detected_strategy.
  destruct (tpm_event_get_digest ev (openssl_name a)) as [old|].
  - destruct (digest_equal old (digest_compute a (event_data ev) (event_size ev))).
    + eexists; split; reflexivity.
    + destruct (digest_equal old (digest_compute a (data parsed) (len parsed)));
        eexists; split; reflexivity.
  - eexists; split; reflexivity.
Qed.

(** ** The outcome of a rehash *)

Lemma build_event_run
    (parsed : tpm_parsed_event_t) (raw : list byte) (n : Z) (w : world) :
  __tpm_event_efi_variable_build_event parsed raw n w
  = match __tpm_event_marshal_efi_variable
            (buffer_alloc_write (16 + 8 + 8 + 2 * strlen (variable_name parsed) + n))
            parsed raw n with
    | None => (Ret None, emit (msg_marshal_failed parsed) w)
    | Some bp => (Ret (Some bp), w)
    end.
Proof.
  unfold __tpm_event_efi_variable_build_event.
  destruct (__tpm_event_marshal_efi_variable _ parsed raw n); reflexivity.
Qed.

Lemma rehash_outcome
    (ev : tpm_event_t tpm_evdigest_t) (parsed : tpm_parsed_event_t)
    (ctx : tpm_event_log_rehash_ctx_t image_t) (w : world) :
  fst (__tpm_event_efi_variable_rehash ev parsed ctx w)
  = rehash_result ev parsed ctx.
Proof.
  unfold __tpm_event_efi_variable_rehash, rehash_result.
  destruct (extract_full_varname_run parsed w) as (p & w1 & E1 & Hp & _ & Hname).
  rewrite (bind_ret _ _ _ _ _ E1).
  assert (Hrest :
    forall k : M (option tpm_evdigest_t),
      fst (match p with
           | NULL_str =>
               fatal ("Unable to extract EFI variable name from EFI_VARIABLE event" ++ nl)
           | _ => k
           end w1) = fst (k w1)).
  { intros k. destruct p; [contradiction|reflexivity|reflexivity]. }
  rewrite Hrest. clear Hrest.
  destruct (detect_hash_strategy_run ev parsed (algo ctx) w1) as (w2 & E2 & V2).
  rewrite (bind_ret _ _ _ _ _ E2).
  destruct (detected_strategy ev parsed (algo ctx) <? 0); [reflexivity|].
  unfold resolved_content.
  assert (Hfile : exists w3,
    (if event_type ev =? TPM2_EFI_VARIABLE_AUTHORITY
     then efi_variable_authority_get_record parsed p ctx
     else name <- load p;; ret (ptr_of_option (runtime_read_efi_variable name))) w2
    = (Ret (if event_type ev =? TPM2_EFI_VARIABLE_AUTHORITY
            then authority_record parsed (resolved_full_name parsed) ctx
            else ptr_of_option (runtime_read_efi_variable (resolved_full_name parsed))),
       w3) /\ varname w3 = varname w1).
  { destruct (event_type ev =? TPM2_EFI_VARIABLE_AUTHORITY).
    - destruct (authority_get_record_run parsed p ctx w2) as (w3 & E3 & V3).
      exists w3. rewrite E3, (Hname w2 V2). split; [reflexivity|congruence].
    - exists w2. unfold bind, load, ret. rewrite (Hname w2 V2). split; [reflexivity|exact V2]. }
  destruct Hfile as (w3 & E3 & V3).
  rewrite (bind_ret _ _ _ _ _ E3).
  destruct (if event_type ev =? TPM2_EFI_VARIABLE_AUTHORITY
            then authority_record parsed (resolved_full_name parsed) ctx
            else ptr_of_option (runtime_read_efi_variable (resolved_full_name parsed)))
    as [| |fd]; try reflexivity.
  destruct (detected_strategy ev parsed (algo ctx) =? HASH_STRATEGY_EVENT).
  - unfold bind at 1. unfold bind at 1. rewrite build_event_run.
    destruct (__tpm_event_marshal_efi_variable _ parsed _ _) as [e|]; [|reflexivity].
    destruct (opt_debug >? 1).
    + unfold bind at 1. unfold bind at 1. unfold load at 1.
      unfold bind at 1. unfold debug at 1.
      destruct (debug_lines_returns
                  (hexdump (buffer_read_pointer e) (buffer_available e))
                  (emit (Debug ("  Remarshaled event for EFI variable "
                                ++ deref p w3 ++ ":" ++ nl)) w3))
        as (w4 & E4 & _).
      rewrite E4. reflexivity.
    + reflexivity.
  - reflexivity.
Qed.

(** ** Bytes and strings *)

Lemma byte_of_char_of_byte (b : byte) :
  0 <= b < 256 -> byte_of_char (char_of_byte b) = b.
Proof.
  intros Hb. unfold byte_of_char, char_of_byte.
  rewrite N_ascii_embedding by lia. lia.
Qed.

Lemma bytes_of_string_of_bytes (bs : list byte) :
  Forall (fun b => 0 <= b < 256) bs ->
  bytes_of_string (string_of_bytes bs) = bs.
Proof.
  intros Hbs. unfold bytes_of_string, string_of_bytes.
  rewrite list_ascii_of_string_of_list_ascii, map_map.
  induction Hbs as [|b r Hb _ IH]; simpl; [reflexivity|].
  now rewrite byte_of_char_of_byte, IH.
Qed.

Lemma length_bytes_of_string (s : string) :
  List.length (bytes_of_string s) = String.length s.
Proof.
  unfold bytes_of_string. rewrite length_map.
  induction s as [|c s IH]; simpl; congruence.
Qed.

Lemma strlen_string_of_bytes (bs : list byte) :
  strlen (string_of_bytes bs) = Z.of_nat (List.length bs).
Proof.
  unfold strlen. f_equal.
  rewrite <- length_bytes_of_string. unfold bytes_of_string, string_of_bytes.
  rewrite list_ascii_of_string_of_list_ascii. now rewrite !length_map.
Qed.

Lemma substring_all (s : string) (n : nat) :
  (String.length s <= n)%nat -> substring 0 n s = s.
Proof.
  revert n. induction s as [|c s IH]; intros n Hn; simpl.
  - destruct n; reflexivity.
  - destruct n as [|n]; simpl in Hn; [lia|].
    rewrite IH by lia. reflexivity.
Qed.

(** ** Little-endian fields *)

Lemma le_value_le_bytes (n : nat) (v : Z) :
  0 <= v < 256 ^ Z.of_nat n -> le_value (le_bytes n v) = v.
Proof.
  revert v. induction n as [|n IH]; intros v Hv.
  - simpl in *. lia.
  - change (le_bytes (S n) v) with (v mod 256 :: le_bytes n (v / 256)).
    cbn [le_value]. rewrite IH.
    + pose proof (Z.div_mod v 256). lia.
    + rewrite Nat2Z.inj_succ, Z.pow_succ_r in Hv by lia.
      split; [apply Z.div_pos; lia|].
      apply Z.div_lt_upper_bound; lia.
Qed.

Lemma length_le_bytes (n : nat) (v : Z) : List.length (le_bytes n v) = n.
Proof. revert v. induction n; intros v; simpl; congruence. Qed.

(** ** UTF-16LE of an ASCII name *)

Lemma u16le_units_bytes (us : list Z) :
  u16le_units (flat_map u16le_bytes us) = us.
Proof.
  induction us as [|u r IH]; [reflexivity|].
  cbn [flat_map u16le_bytes app u16le_units]. rewrite IH. f_equal.
  pose proof (Z.div_mod u 256). lia.
Qed.

Lemma length_u16le_bytes (us : list Z) :
  List.length (flat_map u16le_bytes us) = (2 * List.length us)%nat.
Proof. induction us as [|u r IH]; simpl; lia. Qed.

Lemma utf16_decode_ascii (us : list Z) :
  Forall ascii_unit us -> utf16_decode us = Some us.
Proof.
  induction 1 as [|u r Hu _ IH]; [reflexivity|].
  unfold ascii_unit in Hu. cbn [utf16_decode].
  replace (u <? 0xD800) with true by (symmetry; apply Z.ltb_lt; lia).
  cbn [orb]. now rewrite IH.
Qed.

Lemma utf8_encode_ascii (us : list Z) :
  Forall ascii_unit us -> flat_map utf8_encode_cp us = us.
Proof.
  induction 1 as [|u r Hu _ IH]; [reflexivity|].
  unfold ascii_unit in Hu. cbn [flat_map]. unfold utf8_encode_cp at 1.
  replace (u <? 0x80) with true by (symmetry; apply Z.ltb_lt; lia).
  now rewrite IH.
Qed.

Lemma c_string_ascii (us : list Z) :
  Forall ascii_unit us -> c_string us = us.
Proof.
  induction 1 as [|u r Hu _ IH]; [reflexivity|].
  unfold ascii_unit in Hu. cbn [c_string].
  replace (u =? 0) with false by (symmetry; apply Z.eqb_neq; lia).
  now rewrite IH.
Qed.

Lemma utf8_decode_ascii (us : list Z) :
  Forall ascii_unit us -> utf8_decode us = Some us.
Proof.
  induction 1 as [|u r Hu _ IH]; [reflexivity|].
  unfold ascii_unit in Hu. cbn [utf8_decode].
  replace (u <? 0x80) with true by (symmetry; apply Z.ltb_lt; lia).
  now rewrite IH.
Qed.

Lemma utf16_encode_ascii (us : list Z) :
  Forall ascii_unit us -> flat_map utf16_encode_cp us = us.
Proof.
  induction 1 as [|u r Hu _ IH]; [reflexivity|].
  unfold ascii_unit in Hu. cbn [flat_map]. unfold utf16_encode_cp at 1.
  replace (u <? 0x10000) with true by (symmetry; apply Z.ltb_lt; lia).
  now rewrite IH.
Qed.

Lemma ascii_units_are_bytes (us : list Z) :
  Forall ascii_unit us -> Forall (fun b => 0 <= b < 256) us.
Proof. apply Forall_impl. unfold ascii_unit. intros; lia. Qed.

Lemma convert_from_utf16le_ascii (us : list Z) :
  Forall ascii_unit us ->
  convert_from_utf16le (flat_map u16le_bytes us) = Some (string_of_bytes us).
Proof.
  intros Hus. unfold convert_from_utf16le.
  now rewrite u16le_units_bytes, utf16_decode_ascii, utf8_encode_ascii,
    c_string_ascii.
Qed.

Lemma convert_to_utf16le_ascii (us : list Z) :
  Forall ascii_unit us ->
  convert_to_utf16le (string_of_bytes us) = Some (flat_map u16le_bytes us).
Proof.
  intros Hus. unfold convert_to_utf16le.
  rewrite bytes_of_string_of_bytes by now apply ascii_units_are_bytes.
  now rewrite utf8_decode_ascii, utf16_encode_ascii.
Qed.

(** ** Reading and writing buffers *)

Lemma buffer_get_prefix (bp : buffer_t) (xs rest : list byte) :
  buffer_read_pointer bp = (xs ++ rest)%list ->
  exists bp',
    buffer_get bp (Z.of_nat (List.length xs)) = Some (xs, bp')
    /\ buffer_read_pointer bp' = rest.
Proof.
  intros E. unfold buffer_get, buffer_available. rewrite E, length_app.
  replace (Z.of_nat (List.length xs)
           <=? Z.of_nat (List.length xs + List.length rest)) with true
    by (symmetry; apply Z.leb_le; lia).
  eexists. split.
  - rewrite Nat2Z.id, firstn_app, firstn_all, Nat.sub_diag, firstn_O, app_nil_r.
    reflexivity.
  - unfold buffer_read_pointer in *. cbn [buf_data buf_rpos].
    rewrite Nat.add_comm, <- skipn_skipn, E.
    rewrite skipn_app, skipn_all, Nat.sub_diag. reflexivity.
Qed.

Lemma buffer_put_fits (bp : buffer_t) (p : list byte) (len : Z) :
  len = Z.of_nat (List.length p) ->
  len <= buffer_tailroom bp ->
  buffer_put bp p len
  = Some (mk_buffer (buf_data bp ++ p)%list (buf_rpos bp) (buf_size bp)).
Proof.
  intros -> Hroom. unfold buffer_put.
  replace (Z.of_nat (List.length p) <=? buffer_tailroom bp) with true
    by (symmetry; apply Z.leb_le; lia).
  now rewrite Nat2Z.id, firstn_all.
Qed.

Lemma wrap32_small (z : Z) : 0 <= z < 2 ^ 32 -> wrap32 z = z.
Proof. intros Hz. unfold wrap32. now apply Z.mod_small. Qed.

(** Decoding a well-formed record with an ASCII name. *)
Lemma parse_wire
    (ev : tpm_event_t tpm_evdigest_t)
    (guid : list byte) (units : list Z) (payload : list byte) :
  List.length guid = 16%nat ->
  Forall ascii_unit units ->
  Z.of_nat (List.length units) < 2 ^ 32 ->
  Z.of_nat (List.length payload) < 2 ^ 32 ->
  exists bp',
    __tpm_event_parse_efi_variable ev
      (buffer_of_bytes (efi_variable_wire guid units payload))
    = Some (mk_parsed guid (string_of_bytes units) payload
                      (Z.of_nat (List.length payload)), bp')
    /\ buffer_read_pointer bp' = [].
Proof.
  intros Hguid Hunits Hn Hp.
  unfold __tpm_event_parse_efi_variable, efi_variable_wire.
  set (n1 := Z.of_nat (List.length units)) in *.
  set (n2 := Z.of_nat (List.length payload)) in *.
  destruct (buffer_get_prefix
              (buffer_of_bytes
                 (guid ++ le_bytes 8 n1 ++ le_bytes 8 n2
                  ++ flat_map u16le_bytes units ++ payload)%list)
              guid _ eq_refl) as (bp1 & G1 & R1).
  rewrite Hguid in G1. change (Z.of_nat 16) with 16 in G1. rewrite G1.
  unfold buffer_get_u64le.
  destruct (buffer_get_prefix bp1 (le_bytes 8 n1) _ R1) as (bp2 & G2 & R2).
  rewrite length_le_bytes in G2. change (Z.of_nat 8) with 8 in G2. rewrite G2.
  destruct (buffer_get_prefix bp2 (le_bytes 8 n2) _ R2) as (bp3 & G3 & R3).
  rewrite length_le_bytes in G3. change (Z.of_nat 8) with 8 in G3. rewrite G3.
  rewrite !le_value_le_bytes by (change (256 ^ Z.of_nat 8) with (2 ^ 64); lia).
  unfold buffer_get_utf16le.
  destruct (buffer_get_prefix bp3 (flat_map u16le_bytes units) _ R3)
    as (bp4 & G4 & R4).
  rewrite length_u16le_bytes, Nat2Z.inj_mul in G4.
  change (Z.of_nat 2) with 2 in G4. fold n1 in G4. rewrite G4.
  rewrite convert_from_utf16le_ascii by assumption.
  rewrite <- (app_nil_r payload) in R4.
  destruct (buffer_get_prefix bp4 payload _ R4) as (bp5 & G5 & R5).
  fold n2 in G5. rewrite G5.
  exists bp5. split; [|exact R5].
  now rewrite wrap32_small by lia.
Qed.

Ltac room :=
  unfold buffer_tailroom; cbn [buf_data buf_size]; unfold byte in *;
  rewrite ?length_app, ?length_le_bytes; cbn [List.length]; lia.

(** Marshaling an ASCII name with its content into a buffer of the size
    [__tpm_event_efi_variable_build_event] allocates. *)
Lemma marshal_wire
    (guid : list byte) (units : list Z) (payload : list byte) (l : Z) :
  List.length guid = 16%nat ->
  Forall ascii_unit units ->
  Z.of_nat (List.length units) < 2 ^ 32 ->
  let size := 16 + 8 + 8 + 2 * strlen (string_of_bytes units)
              + Z.of_nat (List.length payload) in
  __tpm_event_marshal_efi_variable
    (buffer_alloc_write size)
    (mk_parsed guid (string_of_bytes units) payload l)
    payload (Z.of_nat (List.length payload))
  = Some (mk_buffer (efi_variable_wire guid units payload) 0 size).
Proof.
  intros Hguid Hunits Hn size. subst size.
  unfold __tpm_event_marshal_efi_variable, efi_variable_wire.
  cbn [variable_guid variable_name].
  rewrite strlen_string_of_bytes.
  unfold buffer_alloc_write, buffer_put_u64le, buffer_put_utf16le.
  rewrite convert_to_utf16le_ascii by assumption.
  unfold byte in *.
  set (n1 := Z.of_nat (List.length units)) in *.
  set (n2 := Z.of_nat (List.length payload)) in *.
  assert (Hn2 : 0 <= n2) by (subst n2; lia).
  assert (Hn1 : 0 <= n1) by (subst n1; lia).
  assert (Hu : Z.of_nat (List.length (flat_map u16le_bytes units)) = 2 * n1)
    by (rewrite length_u16le_bytes; subst n1; lia).
  rewrite (wrap32_small n1) by lia.
  rewrite (buffer_put_fits _ guid 16)
    by (try room; unfold byte in *; rewrite Hguid; reflexivity).
  cbn [buf_data buf_rpos buf_size app].
  rewrite (buffer_put_fits _ (le_bytes 8 n1) 8)
    by (try room; rewrite length_le_bytes; reflexivity).
  cbn [buf_data buf_rpos buf_size].
  rewrite (buffer_put_fits _ (le_bytes 8 n2) 8)
    by (try room; rewrite length_le_bytes; reflexivity).
  cbn [buf_data buf_rpos buf_size].
  rewrite (buffer_put_fits _ (flat_map u16le_bytes units))
    by (try room; reflexivity).
  cbn [buf_data buf_rpos buf_size].
  rewrite (buffer_put_fits _ payload n2) by (try room; reflexivity).
  cbn [buf_data buf_rpos buf_size].
  unfold byte in *. rewrite Hu, Z.eqb_refl. cbn [negb].
  rewrite <- !app_assoc. reflexivity.
Qed.

(** ** The size of a UTF-16LE name *)

Lemma utf16_encode_cp_length (cp : Z) :
  (List.length (utf16_encode_cp cp) <= 2)%nat
  /\ (cp < 0x10000 -> List.length (utf16_encode_cp cp) = 1%nat).
Proof.
  unfold utf16_encode_cp. destruct (cp <? 0x10000) eqn:E; simpl.
  - split; [lia|reflexivity].
  - apply Z.ltb_ge in E. split; [lia|lia].
Qed.

Lemma option_map_cons_some (cp : Z) (o : option (list Z)) (cps : list Z) :
  option_map (cons cp) o = Some cps ->
  exists r, o = Some r /\ cps = cp :: r.
Proof.
  destruct o as [r|]; simpl; [|discriminate].
  intros E. injection E as <-. now exists r.
Qed.

(** A name never takes more UTF-16 code units than it has UTF-8 bytes. *)
Lemma utf8_decode_units_bound (n : nat) :
  forall (bs : list byte) (cps : list Z),
    (List.length bs <= n)%nat ->
    utf8_decode bs = Some cps ->
    (List.length (flat_map utf16_encode_cp cps) <= List.length bs)%nat.
Proof.
  induction n as [|n IH]; intros bs cps Hlen Hdec.
  - destruct bs; [|simpl in Hlen; lia].
    simpl in Hdec. injection Hdec as <-. simpl. lia.
  - destruct bs as [|b0 r].
    { simpl in Hdec. injection Hdec as <-. simpl. lia. }
    cbn [utf8_decode] in Hdec. cbn [List.length] in *.
    destruct (b0 <? 0x80) eqn:E0.
    { apply option_map_cons_some in Hdec as (l & Hl & ->).
      apply IH in Hl; [|lia]. cbn [flat_map]. rewrite length_app.
      apply Z.ltb_lt in E0.
      destruct (utf16_encode_cp_length b0) as [_ H1]. rewrite H1 by lia. lia. }
    destruct (b0 <? 0xC2); [discriminate|].
    destruct (b0 <? 0xE0) eqn:E2.
    { destruct r as [|b1 r1]; [discriminate|].
      destruct (utf8_cont b1) eqn:C1; [|discriminate].
      apply option_map_cons_some in Hdec as (l & Hl & ->).
      cbn [List.length] in *.
      apply IH in Hl; [|lia]. cbn [flat_map]. rewrite length_app.
      apply Z.ltb_lt in E2. unfold utf8_cont in C1.
      apply andb_true_iff in C1 as [_ C1]. apply Z.ltb_lt in C1.
      destruct (utf16_encode_cp_length ((b0 - 0xC0) * 64 + (b1 - 0x80)))
        as [_ H1].
      rewrite H1 by lia. lia. }
    destruct (b0 <? 0xF0).
    { destruct r as [|b1 [|b2 r2]]; try discriminate.
      match type of Hdec with
      | (if ?c then _ else _) = _ => destruct c; [|discriminate]
      end.
      apply option_map_cons_some in Hdec as (l & Hl & ->).
      cbn [List.length] in *.
      apply IH in Hl; [|lia]. cbn [flat_map]. rewrite length_app.
      match goal with
      | |- context [utf16_encode_cp ?cp] =>
          destruct (utf16_encode_cp_length cp) as [H2 _]
      end.
      lia. }
    destruct (b0 <? 0xF5); [|discriminate].
    destruct r as [|b1 [|b2 [|b3 r3]]]; try discriminate.
    match type of Hdec with
    | (if ?c then _ else _) = _ => destruct c; [|discriminate]
    end.
    apply option_map_cons_some in Hdec as (l & Hl & ->).
    cbn [List.length] in *.
    apply IH in Hl; [|lia]. cbn [flat_map]. rewrite length_app.
    match goal with
    | |- context [utf16_encode_cp ?cp] =>
        destruct (utf16_encode_cp_length cp) as [H2 _]
    end.
    lia.
Qed.

Lemma convert_to_utf16le_bound (s : string) (bs : list byte) :
  convert_to_utf16le s = Some bs ->
  Z.of_nat (List.length bs) <= 2 * strlen s.
Proof.
  unfold convert_to_utf16le.
  destruct (utf8_decode (bytes_of_string s)) as [cps|] eqn:E; [|discriminate].
  intros E'. injection E' as <-.
  apply (utf8_decode_units_bound _ _ _ (Nat.le_refl _)) in E.
  rewrite length_bytes_of_string in E.
  rewrite length_u16le_bytes. unfold strlen. lia.
Qed.

(** The guard at the end of [__tpm_event_marshal_efi_variable]: a name
    whose UTF-16LE form is not twice its [strlen] is never marshaled. *)
Lemma marshal_name_mismatch
    (bp : buffer_t) (parsed : tpm_parsed_event_t) (raw : list byte) (n : Z) :
  strlen (variable_name parsed) < 2 ^ 31 ->
  (forall bs, convert_to_utf16le (variable_name parsed) = Some bs ->
              Z.of_nat (List.length bs) <> 2 * strlen (variable_name parsed)) ->
  __tpm_event_marshal_efi_variable bp parsed raw n = None.
Proof.
  intros Hshort Hmis. unfold __tpm_event_marshal_efi_variable.
  destruct (buffer_put bp (variable_guid parsed) 16) as [bp1|]; [|reflexivity].
  destruct (buffer_put_u64le bp1 _) as [bp2|]; [|reflexivity].
  destruct (buffer_put_u64le bp2 n) as [bp3|]; [|reflexivity].
  unfold buffer_put_utf16le.
  destruct (convert_to_utf16le (variable_name parsed)) as [bs|] eqn:E;
    [|reflexivity].
  destruct (buffer_put bp3 bs _) as [bp4|]; [|reflexivity].
  destruct (buffer_put bp4 raw n) as [bp5|]; [|reflexivity].
  pose proof (convert_to_utf16le_bound _ _ E) as Hle.
  specialize (Hmis bs eq_refl).
  assert (Hpos : 0 <= strlen (variable_name parsed)) by (unfold strlen; lia).
  rewrite (wrap32_small (strlen _)) by lia.
  rewrite (wrap32_small (2 * _)) by lia.
  rewrite (wrap32_small (Z.of_nat _)) by lia.
  replace (_ =? _) with false by (symmetry; apply Z.eqb_neq; lia).
  reflexivity.
Qed.

(** ** Hash-strategy detection *)

(** C1.  For an event that has a recorded digest for the target
    algorithm: if the recorded digest equals the digest of the raw
    on-log event bytes, detection returns the whole-event strategy;
    otherwise, if it equals the digest of the decoded payload, detection
    returns the data-only strategy; and if neither matches, detection
    returns the data-only strategy and reports the event as undetermined
    (the "I'm lost." diagnostic, which no other path emits). *)
Theorem detect_hash_strategy_decides
    (ev : tpm_event_t tpm_evdigest_t) (parsed : tpm_parsed_event_t)
    (a : tpm_algo_info_t) (old_md : tpm_evdigest_t) (w : world) :
  tpm_event_get_digest ev (openssl_name a) = Some old_md ->
  let whole :=
    digest_equal old_md (digest_compute a (event_data ev) (event_size ev)) in
  let payload :=
    digest_equal old_md (digest_compute a (data parsed) (len parsed)) in
  let run := __tpm_event_efi_variable_detect_hash_strategy ev parsed a w in
  (whole = true -> run = (Ret HASH_STRATEGY_EVENT, emit msg_hashed_event w))
  /\ (whole = false -> payload = true ->
      run = (Ret HASH_STRATEGY_DATA, emit msg_hashed_data w))
  /\ (whole = false -> payload = false ->
      run = (Ret HASH_STRATEGY_DATA, emit msg_undetermined w))
  /\ msg_undetermined <> msg_hashed_data
  /\ msg_undetermined <> msg_hashed_event.
Proof.
  intros Hold whole payload run. subst whole payload run.
  unfold __tpm_event_efi_variable_detect_hash_strategy. rewrite Hold.
  repeat split.
  - intros ->. reflexivity.
  - intros -> ->. reflexivity.
  - intros -> ->. reflexivity.
  - discriminate.
  - discriminate.
Qed.

(** C10.  When the recorded digest matches both the digest of the raw
    event bytes and the digest of the payload, detection returns the
    whole-event strategy: that comparison comes first. *)
Theorem detect_whole_event_first
    (ev : tpm_event_t tpm_evdigest_t) (parsed : tpm_parsed_event_t)
    (a : tpm_algo_info_t) (old_md : tpm_evdigest_t) (w : world) :
  tpm_event_get_digest ev (openssl_name a) = Some old_md ->
  digest_equal old_md (digest_compute a (event_data ev) (event_size ev)) = true ->
  digest_equal old_md (digest_compute a (data parsed) (len parsed)) = true ->
  __tpm_event_efi_variable_detect_hash_strategy ev parsed a w
  = (Ret HASH_STRATEGY_EVENT, emit msg_hashed_event w).
Proof.
  intros Hold Hwhole _.
  unfold __tpm_event_efi_variable_detect_hash_strategy.
  rewrite Hold, Hwhole. reflexivity.
Qed.

(** C7.  When the log entry has no digest for the requested algorithm,
    detection gives up (it returns -1) and the rehash of the event
    returns no digest. *)
Theorem rehash_without_recorded_digest
    (ev : tpm_event_t tpm_evdigest_t) (parsed : tpm_parsed_event_t)
    (ctx : tpm_event_log_rehash_ctx_t image_t) (w : world) :
  tpm_event_get_digest ev (openssl_name (algo ctx)) = None ->
  __tpm_event_efi_variable_detect_hash_strategy ev parsed (algo ctx) w
  = (Ret (-1), emit (msg_no_digest (algo ctx)) w)
  /\ fst (__tpm_event_efi_variable_rehash ev parsed ctx w) = Ret None.
Proof.
  intros Hnone. split.
  - unfold __tpm_event_efi_variable_detect_hash_strategy. rewrite Hnone.
    reflexivity.
  - rewrite rehash_outcome. unfold rehash_result, detected_strategy.
    rewrite Hnone. reflexivity.
Qed.

(** ** Authority events *)

(** C2.  For an EFI_VARIABLE_AUTHORITY event named "db" whose recorded
    digest matches the digest of the payload, with the data-only
    strategy detected, a signer extracted from the next stage image and
    a record R found for it in database "db", the rehash returns the
    digest of R (for SHA-256 as for any other algorithm). *)
Theorem rehash_db_authority_record
    (ev : tpm_event_t tpm_evdigest_t) (parsed : tpm_parsed_event_t)
    (ctx : tpm_event_log_rehash_ctx_t image_t)
    (old_md : tpm_evdigest_t) (img : image_t) (signer : parsed_cert_t)
    (R : buffer_t) (w : world) :
  event_type ev = TPM2_EFI_VARIABLE_AUTHORITY ->
  variable_name parsed = "db" ->
  tpm_event_get_digest ev (openssl_name (algo ctx)) = Some old_md ->
  digest_equal old_md
    (digest_compute (algo ctx) (data parsed) (len parsed)) = true ->
  fst (__tpm_event_efi_variable_detect_hash_strategy ev parsed (algo ctx) w)
  = Ret HASH_STRATEGY_DATA ->
  next_stage_img ctx = Some img ->
  authenticode_get_signer img = Some signer ->
  efi_application_locate_authority_record "db" signer = Some R ->
  fst (__tpm_event_efi_variable_rehash ev parsed ctx w)
  = Ret (Some (digest_compute (algo ctx)
                 (buffer_read_pointer R) (buffer_available R))).
Proof.
  intros Htype Hname _ _ Hdata Himg Hsigner Hrec.
  destruct (detect_hash_strategy_run ev parsed (algo ctx) w) as (w' & E & _).
  rewrite E in Hdata. cbn [fst] in Hdata. injection Hdata as Hstrategy.
  rewrite rehash_outcome. unfold rehash_result, resolved_content.
  rewrite Hstrategy, Htype, Z.eqb_refl.
  unfold authority_record. rewrite Hname, Himg, Hsigner.
  change (authority_db_name "db") with (Some "db").
  cbn beta iota. rewrite Hrec. reflexivity.
Qed.

(** C3, as the code has it.  For an EFI_VARIABLE_AUTHORITY event named
    Shim, db or MokListRT whose log entry has a recorded digest for the
    target algorithm, the rehash with no next stage image returns that
    recorded digest. *)
Theorem rehash_authority_without_image
    (ev : tpm_event_t tpm_evdigest_t) (parsed : tpm_parsed_event_t)
    (ctx : tpm_event_log_rehash_ctx_t image_t)
    (old_md : tpm_evdigest_t) (w : world) :
  event_type ev = TPM2_EFI_VARIABLE_AUTHORITY ->
  In (variable_name parsed) ["Shim"; "db"; "MokListRT"] ->
  next_stage_img ctx = None ->
  tpm_event_get_digest ev (openssl_name (algo ctx)) = Some old_md ->
  fst (__tpm_event_efi_variable_rehash ev parsed ctx w) = Ret (Some old_md).
Proof.
  intros Htype Hname Himg Hold.
  rewrite rehash_outcome.
  unfold rehash_result, detected_strategy, resolved_content, authority_record.
  rewrite Hold, Htype, Z.eqb_refl, Himg.
  assert (Hdb : exists db, authority_db_name (variable_name parsed) = Some db).
  { destruct Hname as [<-|[<-|[<-|[]]]]; eexists; reflexivity. }
  destruct Hdb as (db & ->).
  destruct (digest_equal old_md _); reflexivity.
Qed.

(** C6.  In [efi_variable_authority_get_record], the short names Shim,
    db and MokListRT select the databases shim-vendor-cert, db and
    MokList; any other short name skips the authority-record logic: the
    variable is read from the runtime store under the name passed in,
    which in a rehash is the full name of the variable. *)
Theorem authority_database_mapping
    (parsed : tpm_parsed_event_t) (var_name : char_ptr)
    (ctx : tpm_event_log_rehash_ctx_t image_t) (w : world) :
  (forall db_name img signer,
      In (variable_name parsed, db_name)
         [("Shim", "shim-vendor-cert"); ("db", "db"); ("MokListRT", "MokList")] ->
      next_stage_img ctx = Some img ->
      authenticode_get_signer img = Some signer ->
      fst (efi_variable_authority_get_record parsed var_name ctx w)
      = Ret (ptr_of_option
               (efi_application_locate_authority_record db_name signer)))
  /\ (~ In (variable_name parsed) ["Shim"; "db"; "MokListRT"] ->
      efi_variable_authority_get_record parsed var_name ctx w
      = (Ret (ptr_of_option (runtime_read_efi_variable (deref var_name w))), w))
  /\ (~ In (variable_name parsed) ["Shim"; "db"; "MokListRT"] ->
      forall p w1,
        tpm_efi_variable_event_extract_full_varname parsed w = (Ret p, w1) ->
        efi_variable_authority_get_record parsed p ctx w1
        = (Ret (ptr_of_option
                  (runtime_read_efi_variable (resolved_full_name parsed))), w1)).
Proof.
  assert (Hother :
    ~ In (variable_name parsed) ["Shim"; "db"; "MokListRT"] ->
    authority_db_name (variable_name parsed) = None).
  { intros Hnot. unfold authority_db_name, streq.
    destruct (String.eqb_spec (variable_name parsed) "Shim") as [E|_].
    { exfalso. apply Hnot. rewrite E. simpl. auto. }
    destruct (String.eqb_spec (variable_name parsed) "db") as [E|_].
    { exfalso. apply Hnot. rewrite E. simpl. auto. }
    destruct (String.eqb_spec (variable_name parsed) "MokListRT") as [E|_].
    { exfalso. apply Hnot. rewrite E. simpl. auto. }
    reflexivity. }
  split; [|split].
  - intros db_name img signer Hin Himg Hsigner.
    destruct (authority_get_record_run parsed var_name ctx w) as (w' & E & _).
    rewrite E. cbn [fst]. unfold authority_record.
    rewrite Himg, Hsigner.
    destruct Hin as [Hp|[Hp|[Hp|[]]]]; injection Hp as <- <-; reflexivity.
  - intros Hnot. unfold efi_variable_authority_get_record.
    rewrite (Hother Hnot). reflexivity.
  - intros Hnot p w1 Hp.
    unfold efi_variable_authority_get_record. rewrite (Hother Hnot).
    destruct (extract_full_varname_run parsed w) as (p' & w' & E & _ & _ & Hd).
    rewrite Hp in E. injection E as <- <-.
    unfold bind, load, ret. now rewrite (Hd w1 eq_refl).
Qed.

(** C9, as the code has it.  At the rehash interface an unreadable
    variable, an authority lookup that finds no record and a signer
    extraction that yields no certificate all come back as the same
    result: no digest (NULL). *)
Theorem rehash_no_digest_outcomes_coincide
    (ev : tpm_event_t tpm_evdigest_t) (parsed : tpm_parsed_event_t)
    (ctx : tpm_event_log_rehash_ctx_t image_t) (w : world) :
  (event_type ev <> TPM2_EFI_VARIABLE_AUTHORITY ->
   runtime_read_efi_variable (resolved_full_name parsed) = None ->
   fst (__tpm_event_efi_variable_rehash ev parsed ctx w) = Ret None)
  /\ (forall db_name img signer,
        event_type ev = TPM2_EFI_VARIABLE_AUTHORITY ->
        authority_db_name (variable_name parsed) = Some db_name ->
        next_stage_img ctx = Some img ->
        authenticode_get_signer img = Some signer ->
        efi_application_locate_authority_record db_name signer = None ->
        fst (__tpm_event_efi_variable_rehash ev parsed ctx w) = Ret None)
  /\ (forall db_name img,
        event_type ev = TPM2_EFI_VARIABLE_AUTHORITY ->
        authority_db_name (variable_name parsed) = Some db_name ->
        next_stage_img ctx = Some img ->
        authenticode_get_signer img = None ->
        fst (__tpm_event_efi_variable_rehash ev parsed ctx w) = Ret None).
Proof.
  rewrite rehash_outcome. unfold rehash_result, resolved_content.
  split; [|split].
  - intros Htype Hread. apply Z.eqb_neq in Htype. rewrite Htype, Hread.
    destruct (_ <? 0); reflexivity.
  - intros db_name img signer Htype Hdb Himg Hsigner Hrec.
    unfold authority_record.
    rewrite Htype, Z.eqb_refl, Hdb, Himg, Hsigner, Hrec.
    destruct (_ <? 0); reflexivity.
  - intros db_name img Htype Hdb Himg Hsigner.
    unfold authority_record.
    rewrite Htype, Z.eqb_refl, Hdb, Himg, Hsigner.
    destruct (_ <? 0); reflexivity.
Qed.

(** ** Re-marshaling *)

(** C4, as the code has it.  Whenever the UTF-16LE form of the variable
    name does not take exactly twice the name length the marshaler
    declares (the [strlen] of the name), building the event fails and
    returns NULL.  In a rehash that reaches this point (whole-event
    strategy, content found) the failure is fatal: the call does not
    return and the program ends with "Unable to re-marshal EFI variable
    for hashing". *)
Theorem remarshal_name_length_mismatch
    (ev : tpm_event_t tpm_evdigest_t) (parsed : tpm_parsed_event_t)
    (ctx : tpm_event_log_rehash_ctx_t image_t) (w : world) :
  strlen (variable_name parsed) < 2 ^ 31 ->
  (forall bs, convert_to_utf16le (variable_name parsed) = Some bs ->
              Z.of_nat (List.length bs) <> 2 * strlen (variable_name parsed)) ->
  (forall raw n w',
      __tpm_event_efi_variable_build_event parsed raw n w'
      = (Ret None, emit (msg_marshal_failed parsed) w'))
  /\ (forall old_md file_data,
        tpm_event_get_digest ev (openssl_name (algo ctx)) = Some old_md ->
        digest_equal old_md
          (digest_compute (algo ctx) (event_data ev) (event_size ev)) = true ->
        resolved_content ev parsed ctx = Buf file_data ->
        fst (__tpm_event_efi_variable_rehash ev parsed ctx w)
        = Fatal remarshal_fatal).
Proof.
  intros Hshort Hmis. split.
  - intros raw n w'. rewrite build_event_run.
    now rewrite marshal_name_mismatch.
  - intros old_md fd Hold Hwhole Hcontent.
    rewrite rehash_outcome. unfold rehash_result, detected_strategy.
    rewrite Hold, Hwhole, Hcontent.
    cbn [Z.ltb Z.compare HASH_STRATEGY_EVENT Z.eqb].
    now rewrite marshal_name_mismatch.
Qed.

(** C5, as the code has it.  For a wire record made of a 16-byte GUID,
    the two length fields, a name of non-NUL ASCII characters in
    UTF-16LE and the payload (name and payload shorter than 2^32),
    decoding succeeds and re-marshaling the decoded event with its own
    payload gives back the wire bytes. *)
Theorem parse_then_build_roundtrip
    (ev : tpm_event_t tpm_evdigest_t)
    (guid : list byte) (units : list Z) (payload : list byte) (w : world) :
  List.length guid = 16%nat ->
  Forall ascii_unit units ->
  Z.of_nat (List.length units) < 2 ^ 32 ->
  Z.of_nat (List.length payload) < 2 ^ 32 ->
  exists parsed bp' out,
    __tpm_event_parse_efi_variable ev
      (buffer_of_bytes (efi_variable_wire guid units payload))
    = Some (parsed, bp')
    /\ __tpm_event_efi_variable_build_event parsed (data parsed) (len parsed) w
       = (Ret (Some out), w)
    /\ buffer_read_pointer out = efi_variable_wire guid units payload.
Proof.
  intros Hguid Hunits Hn Hp.
  destruct (parse_wire ev guid units payload Hguid Hunits Hn Hp)
    as (bp' & Hparse & _).
  eexists _, bp', _. split; [exact Hparse|].
  cbn [data len]. rewrite build_event_run. cbn [variable_name].
  rewrite (marshal_wire guid units payload _ Hguid Hunits Hn).
  split; reflexivity.
Qed.

(** ** The full name *)

(** C8, as the code has it.  If the shim lookup knows an alias for the
    short name, that alias is returned and nothing else changes.
    Otherwise "<name>-<guid text>" is written into the static [varname]
    array, cut to its 255 characters, and the address of the array is
    returned; the text is complete whenever it is at most 255 characters
    long.  The call never fails: it returns a non-NULL pointer. *)
Theorem full_varname_resolution
    (parsed : tpm_parsed_event_t) (w : world) :
  (forall alias,
      shim_variable_get_full_rtname (variable_name parsed) = Some alias ->
      tpm_efi_variable_event_extract_full_varname parsed w
      = (Ret (const_str alias), w))
  /\ (shim_variable_get_full_rtname (variable_name parsed) = None ->
      let full := variable_name parsed ++ "-"
                  ++ tpm_event_decode_uuid (variable_guid parsed) in
      tpm_efi_variable_event_extract_full_varname parsed w
      = (Ret static_varname, mk_world (substring 0 255 full) (console w))
      /\ ((String.length full <= 255)%nat -> substring 0 255 full = full))
  /\ (exists p w',
        tpm_efi_variable_event_extract_full_varname parsed w = (Ret p, w')
        /\ p <> NULL_str).
Proof.
  split; [|split].
  - intros alias Halias.
    unfold tpm_efi_variable_event_extract_full_varname. now rewrite Halias.
  - intros Hnone full. split.
    + unfold tpm_efi_variable_event_extract_full_varname. rewrite Hnone.
      reflexivity.
    + apply substring_all.
  - destruct (extract_full_varname_run parsed w) as (p & w' & E & Hp & _).
    now exists p, w'.
Qed.

End Properties.

(** * Further properties of the code *)

Section Coverage.

Context `{Collaborators}.

Local Open Scope string_scope.
Local Open Scope Z_scope.

(** ** What a successful read or write says about the buffer *)

Lemma buffer_get_some (bp : buffer_t) (len : Z) (bs : list byte) (bp' : buffer_t) :
  buffer_get bp len = Some (bs, bp') ->
  len <= buffer_available bp
  /\ buffer_read_pointer bp = (bs ++ buffer_read_pointer bp')%list
  /\ Z.of_nat (List.length bs) = Z.max 0 len.
Proof.
  unfold buffer_get.
  destruct (len <=? buffer_available bp) eqn:E; [|discriminate].
  intros Hget. injection Hget as <- <-. apply Z.leb_le in E.
  unfold buffer_available, buffer_read_pointer in *. cbn [buf_data buf_rpos].
  split; [exact E|]. split.
  - rewrite Nat.add_comm, <- skipn_skipn. symmetry. apply firstn_skipn.
  - rewrite length_firstn. lia.
Qed.

Lemma buffer_get_available (bp : buffer_t) (len : Z) (bs : list byte) (bp' : buffer_t) :
  buffer_get bp len = Some (bs, bp') ->
  buffer_available bp = Z.max 0 len + buffer_available bp'.
Proof.
  intros Hget. destruct (buffer_get_some _ _ _ _ Hget) as (_ & Hrp & Hlen).
  unfold buffer_available. rewrite Hrp, length_app, Nat2Z.inj_add, Hlen.
  reflexivity.
Qed.

Lemma buffer_put_some (bp : buffer_t) (p : list byte) (len : Z) (bp' : buffer_t) :
  buffer_put bp p len = Some bp' ->
  len <= buffer_tailroom bp
  /\ bp' = mk_buffer (buf_data bp ++ firstn (Z.to_nat len) p)%list
                     (buf_rpos bp) (buf_size bp).
Proof.
  unfold buffer_put. destruct (len <=? buffer_tailroom bp) eqn:E; [|discriminate].
  intros Hput. injection Hput as <-. apply Z.leb_le in E. now split.
Qed.

Lemma le_value_nonneg (bs : list byte) :
  Forall (fun b => 0 <= b < 256) bs -> 0 <= le_value bs.
Proof. induction 1 as [|b r Hb _ IH]; cbn [le_value]; cbv beta in *; lia. Qed.

(** ** Decoding *)

(** The reads a successful decode is made of. *)
Lemma parse_some
    (ev : tpm_event_t tpm_evdigest_t) (bp : buffer_t)
    (parsed : tpm_parsed_event_t) (bp' : buffer_t) :
  __tpm_event_parse_efi_variable ev bp = Some (parsed, bp') ->
  exists guid f1 f2 name_bytes name payload bp1 bp2 bp3 bp4,
    buffer_get bp 16 = Some (guid, bp1)
    /\ buffer_get bp1 8 = Some (f1, bp2)
    /\ buffer_get bp2 8 = Some (f2, bp3)
    /\ buffer_get bp3 (2 * le_value f1) = Some (name_bytes, bp4)
    /\ convert_from_utf16le name_bytes = Some name
    /\ buffer_get bp4 (le_value f2) = Some (payload, bp')
    /\ parsed = mk_parsed guid name payload (wrap32 (le_value f2)).
Proof.
  unfold __tpm_event_parse_efi_variable, buffer_get_u64le, buffer_get_utf16le.
  destruct (buffer_get bp 16) as [[guid bp1]|] eqn:G1; [|discriminate].
  destruct (buffer_get bp1 8) as [[f1 bp2]|] eqn:G2; [|discriminate].
  destruct (buffer_get bp2 8) as [[f2 bp3]|] eqn:G3; [|discriminate].
  destruct (buffer_get bp3 (2 * le_value f1)) as [[name_bytes bp4]|] eqn:G4;
    [|discriminate].
  destruct (convert_from_utf16le name_bytes) as [name|] eqn:G5; [|discriminate].
  destruct (buffer_get bp4 (le_value f2)) as [[payload bp5]|] eqn:G6;
    [|discriminate].
  intros E. injection E as <- <-.
  exists guid, f1, f2, name_bytes, name, payload, bp1, bp2, bp3, bp4.
  repeat split; assumption.
Qed.

(** X1.  A cursor with fewer than 32 readable bytes (GUID and the two
    length fields) is rejected. *)
Theorem parse_rejects_short_header
    (ev : tpm_event_t tpm_evdigest_t) (bp : buffer_t) :
  buffer_available bp < 32 ->
  __tpm_event_parse_efi_variable ev bp = None.
Proof.
  intros Hshort.
  destruct (__tpm_event_parse_efi_variable ev bp) as [[parsed bp']|] eqn:E;
    [exfalso|reflexivity].
  destruct (parse_some _ _ _ _ E)
    as (guid & f1 & f2 & nb & name & payload & bp1 & bp2 & bp3 & bp4
        & G1 & G2 & G3 & _).
  pose proof (buffer_get_available _ _ _ _ G1) as A1.
  pose proof (buffer_get_available _ _ _ _ G2) as A2.
  pose proof (buffer_get_available _ _ _ _ G3) as A3.
  assert (0 <= buffer_available bp3) by (unfold buffer_available; lia).
  lia.
Qed.

(** X2.  On a cursor of real bytes shorter than 2^32, a successful
    decode yields a 16-byte GUID and a length field that is the number
    of payload bytes held, and what is left in the cursor is at most
    what was there minus the header and the payload. *)
Theorem parse_len_is_payload_size
    (ev : tpm_event_t tpm_evdigest_t) (bp : buffer_t)
    (parsed : tpm_parsed_event_t) (bp' : buffer_t) :
  Forall (fun b => 0 <= b < 256) (buffer_read_pointer bp) ->
  buffer_available bp < 2 ^ 32 ->
  __tpm_event_parse_efi_variable ev bp = Some (parsed, bp') ->
  List.length (variable_guid parsed) = 16%nat
  /\ len parsed = Z.of_nat (List.length (data parsed))
  /\ buffer_available bp' <= buffer_available bp - 32 - len parsed.
Proof.
  intros Hbytes Hsize E.
  destruct (parse_some _ _ _ _ E)
    as (guid & f1 & f2 & nb & name & payload & bp1 & bp2 & bp3 & bp4
        & G1 & G2 & G3 & G4 & _ & G5 & ->).
  pose proof (buffer_get_available _ _ _ _ G1) as A1.
  pose proof (buffer_get_available _ _ _ _ G2) as A2.
  pose proof (buffer_get_available _ _ _ _ G3) as A3.
  pose proof (buffer_get_available _ _ _ _ G4) as A4.
  pose proof (buffer_get_available _ _ _ _ G5) as A5.
  destruct (buffer_get_some _ _ _ _ G1) as (_ & R1 & L1).
  destruct (buffer_get_some _ _ _ _ G2) as (_ & R2 & _).
  destruct (buffer_get_some _ _ _ _ G3) as (_ & R3 & _).
  destruct (buffer_get_some _ _ _ _ G5) as (Hfit & _ & L5).
  rewrite R1, R2, R3 in Hbytes.
  apply Forall_app in Hbytes as [_ Hbytes].
  apply Forall_app in Hbytes as [_ Hbytes].
  apply Forall_app in Hbytes as [Hf2 _].
  apply le_value_nonneg in Hf2.
  assert (0 <= buffer_available bp') by (unfold buffer_available; lia).
  cbn [variable_guid len data].
  rewrite wrap32_small by lia.
  repeat split; lia.
Qed.

(** Decoding a record that is followed by more bytes. *)
Lemma parse_wire_tail
    (ev : tpm_event_t tpm_evdigest_t) (bp : buffer_t)
    (guid : list byte) (units : list Z) (payload rest : list byte) :
  List.length guid = 16%nat ->
  Forall ascii_unit units ->
  Z.of_nat (List.length units) < 2 ^ 32 ->
  Z.of_nat (List.length payload) < 2 ^ 32 ->
  buffer_read_pointer bp = (efi_variable_wire guid units payload ++ rest)%list ->
  exists bp',
    __tpm_event_parse_efi_variable ev bp
    = Some (mk_parsed guid (string_of_bytes units) payload
                      (Z.of_nat (List.length payload)), bp')
    /\ buffer_read_pointer bp' = rest.
Proof.
  intros Hguid Hunits Hn Hp Hrp.
  unfold efi_variable_wire in Hrp. rewrite <- !app_assoc in Hrp.
  unfold __tpm_event_parse_efi_variable.
  set (n1 := Z.of_nat (List.length units)) in *.
  set (n2 := Z.of_nat (List.length payload)) in *.
  destruct (buffer_get_prefix bp guid _ Hrp) as (bp1 & G1 & R1).
  rewrite Hguid in G1. change (Z.of_nat 16) with 16 in G1. rewrite G1.
  unfold buffer_get_u64le.
  destruct (buffer_get_prefix bp1 (le_bytes 8 n1) _ R1) as (bp2 & G2 & R2).
  rewrite length_le_bytes in G2. change (Z.of_nat 8) with 8 in G2. rewrite G2.
  destruct (buffer_get_prefix bp2 (le_bytes 8 n2) _ R2) as (bp3 & G3 & R3).
  rewrite length_le_bytes in G3. change (Z.of_nat 8) with 8 in G3. rewrite G3.
  rewrite !le_value_le_bytes by (change (256 ^ Z.of_nat 8) with (2 ^ 64); lia).
  unfold buffer_get_utf16le.
  destruct (buffer_get_prefix bp3 (flat_map u16le_bytes units) _ R3)
    as (bp4 & G4 & R4).
  rewrite length_u16le_bytes, Nat2Z.inj_mul in G4.
  change (Z.of_nat 2) with 2 in G4. fold n1 in G4. rewrite G4.
  rewrite convert_from_utf16le_ascii by assumption.
  destruct (buffer_get_prefix bp4 payload _ R4) as (bp5 & G5 & R5).
  fold n2 in G5. rewrite G5.
  exists bp5. split; [|exact R5].
  now rewrite wrap32_small by lia.
Qed.

(** X3.  Decoding reads one record and stops: for a record with a
    16-byte GUID and an ASCII name, whatever follows the payload stays
    in the cursor, unread, and the decode succeeds all the same. *)
Theorem parse_leaves_trailing_bytes
    (ev : tpm_event_t tpm_evdigest_t) (bp : buffer_t)
    (guid : list byte) (units : list Z) (payload rest : list byte) :
  List.length guid = 16%nat ->
  Forall ascii_unit units ->
  Z.of_nat (List.length units) < 2 ^ 32 ->
  Z.of_nat (List.length payload) < 2 ^ 32 ->
  buffer_read_pointer bp = (efi_variable_wire guid units payload ++ rest)%list ->
  exists bp',
    __tpm_event_parse_efi_variable ev bp
    = Some (mk_parsed guid (string_of_bytes units) payload
                      (Z.of_nat (List.length payload)), bp')
    /\ buffer_read_pointer bp' = rest
    /\ buffer_available bp' = Z.of_nat (List.length rest).
Proof.
  intros Hguid Hunits Hn Hp Hrp.
  destruct (parse_wire_tail ev bp guid units payload rest Hguid Hunits Hn Hp Hrp)
    as (bp' & Hparse & Hrest).
  exists bp'. split; [exact Hparse|]. split; [exact Hrest|].
  unfold buffer_available. now rewrite Hrest.
Qed.

(** ** Re-marshaling *)

Lemma firstn_le_bytes (n : nat) (v : Z) : firstn n (le_bytes n v) = le_bytes n v.
Proof. revert v. induction n as [|n IH]; intros v; simpl; [|rewrite IH]; reflexivity. Qed.

Lemma bytes_of_string_range (s : string) :
  Forall (fun b => 0 <= b < 256) (bytes_of_string s).
Proof.
  unfold bytes_of_string. induction s as [|c s IH]; simpl; constructor; [|exact IH].
  unfold byte_of_char. pose proof (N_ascii_bounded c). lia.
Qed.

Lemma string_of_bytes_of_string (s : string) :
  string_of_bytes (bytes_of_string s) = s.
Proof.
  unfold string_of_bytes, bytes_of_string. rewrite map_map.
  rewrite <- (string_of_list_ascii_of_string s) at 2. f_equal.
  rewrite <- (map_id (list_ascii_of_string s)) at 2.
  apply map_ext. intros c. unfold char_of_byte, byte_of_char.
  now rewrite N2Z.id, ascii_N_embedding.
Qed.

(** What a successful marshal has written. *)
Lemma marshal_some
    (bp : buffer_t) (parsed : tpm_parsed_event_t) (raw : list byte) (n : Z)
    (out : buffer_t) :
  strlen (variable_name parsed) < 2 ^ 31 ->
  __tpm_event_marshal_efi_variable bp parsed raw n = Some out ->
  exists name16,
    convert_to_utf16le (variable_name parsed) = Some name16
    /\ Z.of_nat (List.length name16) = 2 * strlen (variable_name parsed)
    /\ out = mk_buffer
               (buf_data bp
                ++ firstn 16 (variable_guid parsed)
                ++ le_bytes 8 (strlen (variable_name parsed))
                ++ le_bytes 8 n
                ++ name16
                ++ firstn (Z.to_nat n) raw)%list
               (buf_rpos bp) (buf_size bp)
    /\ Z.of_nat (List.length (buf_data out)) <= buf_size bp - n
                                              + Z.of_nat (List.length (firstn (Z.to_nat n) raw)).
Proof.
  intros Hshort. unfold __tpm_event_marshal_efi_variable.
  unfold buffer_put_u64le, buffer_put_utf16le.
  assert (Hpos : 0 <= strlen (variable_name parsed)) by (unfold strlen; lia).
  rewrite (wrap32_small (strlen _)) by lia.
  rewrite (wrap32_small (2 * _)) by lia.
  destruct (buffer_put bp (variable_guid parsed) 16) as [bp1|] eqn:P1;
    [|discriminate].
  destruct (buffer_put bp1 _ 8) as [bp2|] eqn:P2; [|discriminate].
  destruct (buffer_put bp2 _ 8) as [bp3|] eqn:P3; [|discriminate].
  destruct (convert_to_utf16le (variable_name parsed)) as [name16|] eqn:C;
    [|discriminate].
  destruct (buffer_put bp3 name16 _) as [bp4|] eqn:P4; [|discriminate].
  destruct (buffer_put bp4 raw n) as [bp5|] eqn:P5; [|discriminate].
  pose proof (convert_to_utf16le_bound _ _ C) as Hle.
  rewrite (wrap32_small (Z.of_nat _)) by lia.
  destruct (Z.of_nat (List.length name16) =? 2 * strlen (variable_name parsed))
    eqn:G; [|discriminate].
  apply Z.eqb_eq in G. cbn [negb]. intros E. injection E as <-.
  apply buffer_put_some in P1 as (_ & ->).
  apply buffer_put_some in P2 as (_ & ->).
  apply buffer_put_some in P3 as (_ & ->).
  apply buffer_put_some in P4 as (_ & ->).
  apply buffer_put_some in P5 as (Hroom & ->).
  cbn [buf_data buf_rpos buf_size] in *.
  change (Z.to_nat 16) with 16%nat. change (Z.to_nat 8) with 8%nat.
  rewrite !firstn_le_bytes, Nat2Z.id, firstn_all.
  exists name16. split; [reflexivity|]. split; [exact G|]. split.
  - now rewrite <- !app_assoc.
  - unfold buffer_tailroom in Hroom. cbn [buf_data buf_size] in Hroom.
    change (Z.to_nat 16) with 16%nat in Hroom.
    change (Z.to_nat 8) with 8%nat in Hroom.
    rewrite !firstn_le_bytes, Nat2Z.id, firstn_all in Hroom.
    rewrite length_app, Nat2Z.inj_add. unfold byte in *. lia.
Qed.

(** X4.  When building the event succeeds, nothing is printed and the
    buffer holds, in this order, the GUID, the [strlen] of the name and
    the data length as 64-bit little-endian fields, the name in
    UTF-16LE at twice its [strlen], and the data; the buffer the
    function allocated is filled to the last byte. *)
Theorem build_event_layout
    (parsed : tpm_parsed_event_t) (raw : list byte) (n : Z)
    (out : buffer_t) (w w' : world) :
  List.length (variable_guid parsed) = 16%nat ->
  strlen (variable_name parsed) < 2 ^ 31 ->
  0 <= n <= Z.of_nat (List.length raw) ->
  __tpm_event_efi_variable_build_event parsed raw n w = (Ret (Some out), w') ->
  w' = w
  /\ (exists name16,
        convert_to_utf16le (variable_name parsed) = Some name16
        /\ Z.of_nat (List.length name16) = 2 * strlen (variable_name parsed)
        /\ buffer_read_pointer out
           = (variable_guid parsed
              ++ le_bytes 8 (strlen (variable_name parsed))
              ++ le_bytes 8 n
              ++ name16
              ++ firstn (Z.to_nat n) raw)%list)
  /\ buffer_available out = 16 + 8 + 8 + 2 * strlen (variable_name parsed) + n
  /\ buffer_tailroom out = 0.
Proof.
  intros Hguid Hshort Hn Hbuild. rewrite build_event_run in Hbuild.
  destruct (__tpm_event_marshal_efi_variable _ parsed raw n) as [bp|] eqn:E;
    [|discriminate].
  injection Hbuild as -> ->. split; [reflexivity|].
  destruct (marshal_some _ _ _ _ _ Hshort E) as (name16 & C & L & -> & _).
  unfold buffer_alloc_write.
  unfold buffer_available, buffer_tailroom, buffer_read_pointer.
  cbn [buf_data buf_rpos buf_size skipn app].
  assert (Hfg : firstn 16 (variable_guid parsed) = variable_guid parsed)
    by (rewrite <- Hguid; apply firstn_all).
  rewrite !Hfg.
  assert (Hlen :
    Z.of_nat (List.length
                (variable_guid parsed
                 ++ le_bytes 8 (strlen (variable_name parsed))
                 ++ le_bytes 8 n ++ name16 ++ firstn (Z.to_nat n) raw)%list)
    = 16 + 8 + 8 + 2 * strlen (variable_name parsed) + n).
  { rewrite !length_app, !length_le_bytes, length_firstn.
    unfold byte in *. lia. }
  split; [|split].
  - exists name16. split; [exact C|]. split; [exact L|reflexivity].
  - exact Hlen.
  - rewrite Hlen. lia.
Qed.

(** A name that takes as many UTF-16 code units as it has UTF-8 bytes
    is made of one-byte characters. *)
Lemma utf8_decode_units_eq (n : nat) :
  forall (bs : list byte) (cps : list Z),
    (List.length bs <= n)%nat ->
    utf8_decode bs = Some cps ->
    List.length (flat_map utf16_encode_cp cps) = List.length bs ->
    Forall (fun b => b < 0x80) bs.
Proof.
  induction n as [|n IH]; intros bs cps Hlen Hdec Heq.
  - destruct bs; [constructor|simpl in Hlen; lia].
  - destruct bs as [|b0 r]; [constructor|].
    cbn [utf8_decode] in Hdec. cbn [List.length] in *.
    destruct (b0 <? 0x80) eqn:E0.
    { apply option_map_cons_some in Hdec as (l & Hl & ->).
      apply Z.ltb_lt in E0. cbn [flat_map] in Heq. rewrite length_app in Heq.
      destruct (utf16_encode_cp_length b0) as [_ H1]. rewrite H1 in Heq by lia.
      constructor; [exact E0|]. apply (IH r l); [lia|exact Hl|lia]. }
    exfalso.
    destruct (b0 <? 0xC2); [discriminate|].
    destruct (b0 <? 0xE0) eqn:E2.
    { destruct r as [|b1 r1]; [discriminate|].
      destruct (utf8_cont b1) eqn:C1; [|discriminate].
      apply option_map_cons_some in Hdec as (l & Hl & ->).
      cbn [List.length] in *.
      pose proof (utf8_decode_units_bound _ _ _ (Nat.le_refl _) Hl) as Hb.
      cbn [flat_map] in Heq. rewrite length_app in Heq.
      apply Z.ltb_lt in E2. unfold utf8_cont in C1.
      apply andb_true_iff in C1 as [_ C1]. apply Z.ltb_lt in C1.
      destruct (utf16_encode_cp_length ((b0 - 0xC0) * 64 + (b1 - 0x80)))
        as [_ H1].
      rewrite H1 in Heq by lia. lia. }
    destruct (b0 <? 0xF0).
    { destruct r as [|b1 [|b2 r2]]; try discriminate.
      match type of Hdec with
      | (if ?c then _ else _) = _ => destruct c; [|discriminate]
      end.
      apply option_map_cons_some in Hdec as (l & Hl & ->).
      cbn [List.length] in *.
      pose proof (utf8_decode_units_bound _ _ _ (Nat.le_refl _) Hl) as Hb.
      cbn [flat_map] in Heq. rewrite length_app in Heq.
      match type of Heq with
      | context [utf16_encode_cp ?cp] =>
          destruct (utf16_encode_cp_length cp) as [H2 _]
      end.
      lia. }
    destruct (b0 <? 0xF5); [|discriminate].
    destruct r as [|b1 [|b2 [|b3 r3]]]; try discriminate.
    match type of Hdec with
    | (if ?c then _ else _) = _ => destruct c; [|discriminate]
    end.
    apply option_map_cons_some in Hdec as (l & Hl & ->).
    cbn [List.length] in *.
    pose proof (utf8_decode_units_bound _ _ _ (Nat.le_refl _) Hl) as Hb.
    cbn [flat_map] in Heq. rewrite length_app in Heq.
    match type of Heq with
    | context [utf16_encode_cp ?cp] =>
        destruct (utf16_encode_cp_length cp) as [H2 _]
    end.
    lia.
Qed.

(** The marshaler reads the GUID and the name of the event, and the
    content it is handed; the payload held in the event plays no part. *)
Lemma marshal_wire_content
    (guid : list byte) (units : list Z) (payload : list byte) (l : Z)
    (content : list byte) :
  List.length guid = 16%nat ->
  Forall ascii_unit units ->
  Z.of_nat (List.length units) < 2 ^ 32 ->
  let size := 16 + 8 + 8 + 2 * strlen (string_of_bytes units)
              + Z.of_nat (List.length content) in
  __tpm_event_marshal_efi_variable
    (buffer_alloc_write size)
    (mk_parsed guid (string_of_bytes units) payload l)
    content (Z.of_nat (List.length content))
  = Some (mk_buffer (efi_variable_wire guid units content) 0 size).
Proof.
  intros Hguid Hunits Hn.
  exact (marshal_wire guid units content l Hguid Hunits Hn).
Qed.

(** X5.  For an event with a 16-byte GUID and a name without NUL
    shorter than 2^31, building the event succeeds exactly when every
    character of the name is ASCII. *)
Theorem build_event_succeeds_iff_ascii
    (parsed : tpm_parsed_event_t) (raw : list byte) (w : world) :
  List.length (variable_guid parsed) = 16%nat ->
  strlen (variable_name parsed) < 2 ^ 31 ->
  Forall (fun b => b <> 0) (bytes_of_string (variable_name parsed)) ->
  (exists out,
      __tpm_event_efi_variable_build_event
        parsed raw (Z.of_nat (List.length raw)) w = (Ret (Some out), w))
  <-> Forall (fun b => b < 0x80) (bytes_of_string (variable_name parsed)).
Proof.
  intros Hguid Hshort Hnul. rewrite build_event_run. split.
  - intros (out & Hbuild).
    destruct (__tpm_event_marshal_efi_variable _ parsed raw _) as [bp|] eqn:E;
      [|discriminate].
    destruct (marshal_some _ _ _ _ _ Hshort E) as (name16 & C & L & _).
    unfold convert_to_utf16le in C.
    destruct (utf8_decode (bytes_of_string (variable_name parsed)))
      as [cps|] eqn:D; [|discriminate].
    injection C as <-. rewrite length_u16le_bytes in L.
    apply (utf8_decode_units_eq _ _ cps (Nat.le_refl _) D).
    rewrite length_bytes_of_string. unfold strlen in L. lia.
  - intros Hascii.
    assert (Hunits : Forall ascii_unit (bytes_of_string (variable_name parsed))).
    { pose proof (bytes_of_string_range (variable_name parsed)) as Hrange.
      rewrite Forall_forall in *. intros b Hb. unfold ascii_unit.
      specialize (Hascii b Hb). specialize (Hnul b Hb).
      specialize (Hrange b Hb). cbv beta in *. lia. }
    destruct parsed as [guid name payload l]. cbn [variable_guid variable_name] in *.
    rewrite <- (string_of_bytes_of_string name).
    rewrite (marshal_wire_content guid (bytes_of_string name) payload l raw
               Hguid Hunits).
    + eexists. reflexivity.
    + rewrite length_bytes_of_string. unfold strlen in Hshort. lia.
Qed.

(** X6.  Marshaling and decoding compose: for a 16-byte GUID and an
    ASCII name, the buffer built from the event and some content decodes
    to the same GUID and name with that content as payload, and nothing
    is left over. *)
Theorem build_then_parse
    (ev : tpm_event_t tpm_evdigest_t)
    (guid : list byte) (units : list Z) (payload : list byte) (l : Z)
    (content : list byte) (w : world) :
  List.length guid = 16%nat ->
  Forall ascii_unit units ->
  Z.of_nat (List.length units) < 2 ^ 32 ->
  Z.of_nat (List.length content) < 2 ^ 32 ->
  exists out bp',
    __tpm_event_efi_variable_build_event
      (mk_parsed guid (string_of_bytes units) payload l)
      content (Z.of_nat (List.length content)) w
    = (Ret (Some out), w)
    /\ __tpm_event_parse_efi_variable ev out
       = Some (mk_parsed guid (string_of_bytes units) content
                         (Z.of_nat (List.length content)), bp')
    /\ buffer_read_pointer bp' = [].
Proof.
  intros Hguid Hunits Hn Hc.
  rewrite build_event_run. cbn [variable_name].
  rewrite (marshal_wire_content guid units payload l content Hguid Hunits Hn).
  destruct (parse_wire_tail ev
              (mk_buffer (efi_variable_wire guid units content) 0
                 (16 + 8 + 8 + 2 * strlen (string_of_bytes units)
                  + Z.of_nat (List.length content)))
              guid units content [] Hguid Hunits Hn Hc)
    as (bp' & Hparse & Hrest).
  { unfold buffer_read_pointer. cbn [buf_data buf_rpos skipn].
    now rewrite app_nil_r. }
  eexists _, bp'. split; [reflexivity|]. split; assumption.
Qed.

(** ** Rehash: how the pieces compose *)

(** X7.  With the whole-event strategy detected, the content found and
    an ASCII name, the rehash is the digest of the wire record that
    carries the content found in place of the logged payload. *)
Theorem rehash_whole_event_digest
    (ev : tpm_event_t tpm_evdigest_t)
    (guid : list byte) (units : list Z) (payload : list byte) (l : Z)
    (ctx : tpm_event_log_rehash_ctx_t image_t)
    (old_md : tpm_evdigest_t) (file_data : buffer_t) (w : world) :
  let parsed := mk_parsed guid (string_of_bytes units) payload l in
  let wire := efi_variable_wire guid units (buffer_read_pointer file_data) in
  List.length guid = 16%nat ->
  Forall ascii_unit units ->
  Z.of_nat (List.length units) < 2 ^ 32 ->
  tpm_event_get_digest ev (openssl_name (algo ctx)) = Some old_md ->
  digest_equal old_md
    (digest_compute (algo ctx) (event_data ev) (event_size ev)) = true ->
  resolved_content ev parsed ctx = Buf file_data ->
  fst (__tpm_event_efi_variable_rehash ev parsed ctx w)
  = Ret (Some (digest_compute (algo ctx) wire (Z.of_nat (List.length wire)))).
Proof.
  intros parsed wire Hguid Hunits Hn Hold Hwhole Hcontent.
  rewrite rehash_outcome. unfold rehash_result, detected_strategy.
  rewrite Hold, Hwhole, Hcontent.
  cbn [Z.ltb Z.compare HASH_STRATEGY_EVENT Z.eqb].
  subst parsed. cbn [variable_name]. unfold buffer_available at 1 2.
  rewrite (marshal_wire_content guid units payload l _ Hguid Hunits Hn).
  reflexivity.
Qed.

(** X8.  A variable that has not changed is predicted as logged, whole
    event: when the raw event is the wire record of an ASCII-named
    variable, the firmware hashed the whole event and the content found
    is the logged payload, the rehash returns a digest that compares
    equal to the recorded one. *)
Theorem rehash_unchanged_whole_event
    (ev : tpm_event_t tpm_evdigest_t)
    (guid : list byte) (units : list Z) (payload : list byte) (l : Z)
    (ctx : tpm_event_log_rehash_ctx_t image_t)
    (old_md : tpm_evdigest_t) (file_data : buffer_t) (w : world) :
  let parsed := mk_parsed guid (string_of_bytes units) payload l in
  List.length guid = 16%nat ->
  Forall ascii_unit units ->
  Z.of_nat (List.length units) < 2 ^ 32 ->
  event_data ev = efi_variable_wire guid units payload ->
  event_size ev = Z.of_nat (List.length (event_data ev)) ->
  tpm_event_get_digest ev (openssl_name (algo ctx)) = Some old_md ->
  digest_equal old_md
    (digest_compute (algo ctx) (event_data ev) (event_size ev)) = true ->
  resolved_content ev parsed ctx = Buf file_data ->
  buffer_read_pointer file_data = payload ->
  exists md,
    fst (__tpm_event_efi_variable_rehash ev parsed ctx w) = Ret (Some md)
    /\ digest_equal old_md md = true.
Proof.
  intros parsed Hguid Hunits Hn Hdata Hsize Hold Hwhole Hcontent Hsame.
  exists (digest_compute (algo ctx) (event_data ev) (event_size ev)).
  split; [|exact Hwhole].
  rewrite rehash_outcome. unfold rehash_result, detected_strategy.
  rewrite Hold, Hwhole, Hcontent.
  cbn [Z.ltb Z.compare HASH_STRATEGY_EVENT Z.eqb].
  subst parsed. cbn [variable_name]. unfold buffer_available at 1 2.
  rewrite (marshal_wire_content guid units payload l _ Hguid Hunits Hn).
  rewrite Hsame, Hsize, Hdata. reflexivity.
Qed.

(** X9.  A variable that has not changed is predicted as logged, data
    only: when the firmware hashed the payload and the content found is
    the payload the event holds, the rehash returns a digest that
    compares equal to the recorded one. *)
Theorem rehash_unchanged_data_only
    (ev : tpm_event_t tpm_evdigest_t) (parsed : tpm_parsed_event_t)
    (ctx : tpm_event_log_rehash_ctx_t image_t)
    (old_md : tpm_evdigest_t) (file_data : buffer_t) (w : world) :
  tpm_event_get_digest ev (openssl_name (algo ctx)) = Some old_md ->
  digest_equal old_md
    (digest_compute (algo ctx) (event_data ev) (event_size ev)) = false ->
  digest_equal old_md
    (digest_compute (algo ctx) (data parsed) (len parsed)) = true ->
  len parsed = Z.of_nat (List.length (data parsed)) ->
  resolved_content ev parsed ctx = Buf file_data ->
  buffer_read_pointer file_data = data parsed ->
  exists md,
    fst (__tpm_event_efi_variable_rehash ev parsed ctx w) = Ret (Some md)
    /\ digest_equal old_md md = true.
Proof.
  intros Hold Hwhole Hpayload Hlen Hcontent Hsame.
  exists (digest_compute (algo ctx) (data parsed) (len parsed)).
  split; [|exact Hpayload].
  rewrite rehash_outcome. unfold rehash_result, detected_strategy.
  rewrite Hold, Hwhole, Hcontent.
  cbn [Z.ltb Z.compare HASH_STRATEGY_DATA HASH_STRATEGY_EVENT Z.eqb Pos.eqb].
  unfold buffer_available. now rewrite Hsame, Hlen.
Qed.

(** Where a rehash can end the program. *)
Lemma rehash_fatal_inv
    (ev : tpm_event_t tpm_evdigest_t) (parsed : tpm_parsed_event_t)
    (ctx : tpm_event_log_rehash_ctx_t image_t) (m : string) :
  rehash_result ev parsed ctx = Fatal m ->
  m = remarshal_fatal
  /\ (exists old_md,
        tpm_event_get_digest ev (openssl_name (algo ctx)) = Some old_md
        /\ digest_equal old_md
             (digest_compute (algo ctx) (event_data ev) (event_size ev)) = true)
  /\ (exists file_data,
        resolved_content ev parsed ctx = Buf file_data
        /\ __tpm_event_marshal_efi_variable
             (buffer_alloc_write
                (16 + 8 + 8 + 2 * strlen (variable_name parsed)
                 + buffer_available file_data))
             parsed (buffer_read_pointer file_data)
             (buffer_available file_data) = None).
Proof.
  unfold rehash_result, detected_strategy.
  destruct (tpm_event_get_digest ev (openssl_name (algo ctx))) as [old|];
    [|discriminate].
  destruct (digest_equal old _) eqn:Hwhole.
  - cbn [Z.ltb Z.compare HASH_STRATEGY_EVENT Z.eqb].
    destruct (resolved_content ev parsed ctx) as [| |fd]; try discriminate.
    destruct (__tpm_event_marshal_efi_variable _ parsed _ _) eqn:E;
      [discriminate|].
    intros Hm. injection Hm as <-.
    split; [reflexivity|]. split; [now exists old|now exists fd].
  - cbn [Z.ltb Z.compare HASH_STRATEGY_DATA HASH_STRATEGY_EVENT Z.eqb Pos.eqb].
    destruct (resolved_content ev parsed ctx); discriminate.
Qed.

(** X10.  A rehash ends the program at one place only: when the
    whole-event strategy was detected, the content was found and
    building the event failed.  The other [fatal], the one for a missing
    variable name, is never reached. *)
Theorem rehash_fatal_only_on_remarshal
    (ev : tpm_event_t tpm_evdigest_t) (parsed : tpm_parsed_event_t)
    (ctx : tpm_event_log_rehash_ctx_t image_t) (w : world) (m : string) :
  fst (__tpm_event_efi_variable_rehash ev parsed ctx w) = Fatal m ->
  m = remarshal_fatal
  /\ fst (__tpm_event_efi_variable_detect_hash_strategy ev parsed (algo ctx) w)
     = Ret HASH_STRATEGY_EVENT
  /\ exists file_data,
       resolved_content ev parsed ctx = Buf file_data
       /\ fst (__tpm_event_efi_variable_build_event parsed
                 (buffer_read_pointer file_data)
                 (buffer_available file_data) w) = Ret None.
Proof.
  intros Hfatal. rewrite rehash_outcome in Hfatal.
  destruct (rehash_fatal_inv _ _ _ _ Hfatal)
    as (-> & (old & Hold & Hwhole) & (fd & Hcontent & Hmarshal)).
  split; [reflexivity|]. split.
  - unfold __tpm_event_efi_variable_detect_hash_strategy.
    rewrite Hold, Hwhole. reflexivity.
  - exists fd. split; [exact Hcontent|].
    rewrite build_event_run, Hmarshal. reflexivity.
Qed.

(** X11.  For an event with a 16-byte GUID and an ASCII name the rehash
    always returns: it never ends the program. *)
Theorem rehash_returns_for_ascii_names
    (ev : tpm_event_t tpm_evdigest_t)
    (guid : list byte) (units : list Z) (payload : list byte) (l : Z)
    (ctx : tpm_event_log_rehash_ctx_t image_t) (w : world) :
  List.length guid = 16%nat ->
  Forall ascii_unit units ->
  Z.of_nat (List.length units) < 2 ^ 32 ->
  exists md,
    fst (__tpm_event_efi_variable_rehash
           ev (mk_parsed guid (string_of_bytes units) payload l) ctx w)
    = Ret md.
Proof.
  intros Hguid Hunits Hn. rewrite rehash_outcome.
  destruct (rehash_result ev (mk_parsed guid (string_of_bytes units) payload l) ctx)
    as [md|m] eqn:E; [now exists md|exfalso].
  destruct (rehash_fatal_inv _ _ _ _ E) as (_ & _ & (fd & _ & Hmarshal)).
  cbn [variable_name] in Hmarshal. unfold buffer_available in Hmarshal.
  rewrite (marshal_wire_content guid units payload l _ Hguid Hunits Hn)
    in Hmarshal.
  discriminate.
Qed.

(** X12.  The result of a rehash does not depend on the state earlier
    calls left behind: neither on what the static name buffer holds nor
    on what has been printed. *)
Theorem rehash_result_ignores_state
    (ev : tpm_event_t tpm_evdigest_t) (parsed : tpm_parsed_event_t)
    (ctx : tpm_event_log_rehash_ctx_t image_t) (w w' : world) :
  fst (__tpm_event_efi_variable_rehash ev parsed ctx w)
  = fst (__tpm_event_efi_variable_rehash ev parsed ctx w').
Proof.
  rewrite (rehash_outcome ev parsed ctx w).
  rewrite (rehash_outcome ev parsed ctx w').
  reflexivity.
Qed.

(** X13.  The next stage image matters to signature-database authority
    events only: for an event of another type, or an authority event
    whose name is not Shim, db or MokListRT, the rehash is the same
    whatever image the context holds. *)
Theorem rehash_ignores_image
    (ev : tpm_event_t tpm_evdigest_t) (parsed : tpm_parsed_event_t)
    (a : tpm_algo_info_t) (img img' : option image_t) (w : world) :
  event_type ev <> TPM2_EFI_VARIABLE_AUTHORITY
  \/ authority_db_name (variable_name parsed) = None ->
  fst (__tpm_event_efi_variable_rehash ev parsed (mk_ctx a img) w)
  = fst (__tpm_event_efi_variable_rehash ev parsed (mk_ctx a img') w).
Proof.
  intros Hplain. rewrite !rehash_outcome.
  unfold rehash_result, resolved_content, authority_record. cbn [algo].
  destruct Hplain as [Htype|Hname].
  - apply Z.eqb_neq in Htype. rewrite Htype. reflexivity.
  - rewrite Hname. destruct (event_type ev =? _); reflexivity.
Qed.

(** X14.  A rehash returns no digest exactly when the log has no digest
    for the algorithm or the content of the variable was not found. *)
Theorem rehash_null_iff
    (ev : tpm_event_t tpm_evdigest_t) (parsed : tpm_parsed_event_t)
    (ctx : tpm_event_log_rehash_ctx_t image_t) (w : world) :
  fst (__tpm_event_efi_variable_rehash ev parsed ctx w) = Ret None
  <-> tpm_event_get_digest ev (openssl_name (algo ctx)) = None
      \/ resolved_content ev parsed ctx = NULL.
Proof.
  rewrite rehash_outcome. unfold rehash_result, detected_strategy.
  destruct (tpm_event_get_digest ev (openssl_name (algo ctx))) as [old|].
  - assert (Hstrategy :
      forall s, s = HASH_STRATEGY_EVENT \/ s = HASH_STRATEGY_DATA ->
        (if s <? 0 then Ret None
         else
           match resolved_content ev parsed ctx with
           | NULL => Ret None
           | EFI_BSA_NOT_FOUND => Ret (Some old)
           | Buf file_data =>
               if s =? HASH_STRATEGY_EVENT then
                 match __tpm_event_marshal_efi_variable
                         (buffer_alloc_write
                            (16 + 8 + 8 + 2 * strlen (variable_name parsed)
                             + buffer_available file_data))
                         parsed (buffer_read_pointer file_data)
                         (buffer_available file_data) with
                 | None => Fatal ("Unable to re-marshal EFI variable for hashing" ++ nl)
                 | Some event_data =>
                     Ret (Some (digest_compute (algo ctx)
                                  (buffer_read_pointer event_data)
                                  (buffer_available event_data)))
                 end
               else Ret (Some (digest_compute (algo ctx)
                                 (buffer_read_pointer file_data)
                                 (buffer_available file_data)))
           end) = Ret None
        <-> Some old = None \/ resolved_content ev parsed ctx = NULL).
    { intros s [-> | ->];
        cbn [Z.ltb Z.compare HASH_STRATEGY_DATA HASH_STRATEGY_EVENT
             Z.eqb Pos.eqb];
        (destruct (resolved_content ev parsed ctx) as [| |fd];
         [tauto
         |split; [discriminate|intros [?|?]; discriminate]
         |try destruct (__tpm_event_marshal_efi_variable _ parsed _ _);
          (split; [discriminate|intros [?|?]; discriminate])]). }
    destruct (digest_equal old _); apply Hstrategy; auto.
  - cbn. tauto.
Qed.

(** ** The authority record *)

(** X15.  [efi_variable_authority_get_record] returns the magic
    EFI_BSA_NOT_FOUND pointer exactly when the name is Shim, db or
    MokListRT and the context has no next stage image. *)
Theorem authority_record_not_found_iff
    (parsed : tpm_parsed_event_t) (var_name : char_ptr)
    (ctx : tpm_event_log_rehash_ctx_t image_t) (w : world) :
  fst (efi_variable_authority_get_record parsed var_name ctx w)
  = Ret EFI_BSA_NOT_FOUND
  <-> In (variable_name parsed) ["Shim"; "db"; "MokListRT"]
      /\ next_stage_img ctx = None.
Proof.
  destruct (authority_get_record_run parsed var_name ctx w) as (w' & E & _).
  rewrite E. cbn [fst]. unfold authority_record.
  assert (Hdb :
    authority_db_name (variable_name parsed) <> None
    <-> In (variable_name parsed) ["Shim"; "db"; "MokListRT"]).
  { unfold authority_db_name, streq. cbn [In].
    destruct (String.eqb_spec (variable_name parsed) "Shim") as [->|N1].
    { split; [auto|discriminate]. }
    destruct (String.eqb_spec (variable_name parsed) "db") as [->|N2].
    { split; [auto|discriminate]. }
    destruct (String.eqb_spec (variable_name parsed) "MokListRT") as [->|N3].
    { split; [auto|discriminate]. }
    split; [congruence|].
    intros [E1|[E2|[E3|[]]]]; congruence. }
  destruct (authority_db_name (variable_name parsed)) as [db|].
  - destruct (next_stage_img ctx) as [img|].
    + destruct (authenticode_get_signer img) as [signer|].
      * destruct (efi_application_locate_authority_record db signer);
          cbn [ptr_of_option];
          (split; [discriminate|intros [_ ?]; discriminate]).
      * split; [discriminate|intros [_ ?]; discriminate].
    + split; [intros _; split; [apply Hdb; discriminate|reflexivity]|reflexivity].
  - destruct (runtime_read_efi_variable (deref var_name w)); cbn [ptr_of_option];
      (split; [discriminate|intros [Hin _]; apply Hdb in Hin; congruence]).
Qed.

(** ** The full name *)

Lemma length_substring_le (n : nat) (s : string) :
  (String.length (substring 0 n s) <= n)%nat.
Proof.
  revert n. induction s as [|c s IH]; intros [|n]; simpl; try lia.
  specialize (IH n). lia.
Qed.

(** X16.  The name left in the static buffer is never longer than 255
    characters, however long the variable name is. *)
Theorem full_varname_bounded
    (parsed : tpm_parsed_event_t) (w : world) :
  shim_variable_get_full_rtname (variable_name parsed) = None ->
  fst (tpm_efi_variable_event_extract_full_varname parsed w)
  = Ret static_varname
  /\ (String.length
        (deref static_varname
           (snd (tpm_efi_variable_event_extract_full_varname parsed w)))
      <= 255)%nat.
Proof.
  intros Hnone. unfold tpm_efi_variable_event_extract_full_varname.
  rewrite Hnone. unfold bind, store_varname, ret, snprintf.
  cbn [fst snd deref varname]. split; [reflexivity|].
  apply length_substring_le.
Qed.

(** X17.  The static buffer is shared between calls: once the name of
    another variable without a shim alias has been resolved, the pointer
    an earlier call returned reads as the later variable's name; only a
    pointer to a shim alias keeps its meaning. *)
Theorem full_varname_pointer_is_overwritten
    (first later : tpm_parsed_event_t) (w w1 w2 : world) (p q : char_ptr) :
  shim_variable_get_full_rtname (variable_name later) = None ->
  tpm_efi_variable_event_extract_full_varname first w = (Ret p, w1) ->
  tpm_efi_variable_event_extract_full_varname later w1 = (Ret q, w2) ->
  (shim_variable_get_full_rtname (variable_name first) = None ->
   deref p w1 = resolved_full_name first
   /\ deref p w2 = resolved_full_name later)
  /\ (forall alias,
        shim_variable_get_full_rtname (variable_name first) = Some alias ->
        deref p w1 = alias /\ deref p w2 = alias).
Proof.
  intros Hlater Hfirst Hsecond.
  unfold tpm_efi_variable_event_extract_full_varname in *.
  rewrite Hlater in Hsecond.
  unfold bind, store_varname, ret in *.
  injection Hsecond as <- <-.
  split.
  - intros Hnone. rewrite Hnone in Hfirst. injection Hfirst as <- <-.
    unfold resolved_full_name. rewrite Hnone, Hlater. split; reflexivity.
  - intros alias Halias. rewrite Halias in Hfirst. injection Hfirst as <- <-.
    split; reflexivity.
Qed.

(** ** What a rehash does to the process state *)

Lemma printed_refl (w : world) : printed w w.
Proof. split; [reflexivity|]. exists []. now rewrite app_nil_r. Qed.

Lemma printed_trans (w1 w2 w3 : world) :
  printed w1 w2 -> printed w2 w3 -> printed w1 w3.
Proof.
  intros (V1 & l1 & C1) (V2 & l2 & C2). split; [congruence|].
  exists (l1 ++ l2)%list. now rewrite C2, C1, app_assoc.
Qed.

Lemma printed_emit (m : msg) (w : world) : printed w (emit m w).
Proof. split; [reflexivity|]. now exists [m]. Qed.

Lemma debug_lines_printed (ls : list string) (w : world) :
  exists w', debug_lines ls w = (Ret tt, w') /\ printed w w'.
Proof.
  revert w. induction ls as [|l r IH]; intros w; simpl.
  - exists w. split; [reflexivity|apply printed_refl].
  - destruct (IH (emit (Debug l) w)) as (w' & E & P).
    exists w'. split; [exact E|].
    eapply printed_trans; [apply printed_emit|exact P].
Qed.

Lemma detect_hash_strategy_printed
    (ev : tpm_event_t tpm_evdigest_t) (parsed : tpm_parsed_event_t)
    (a : tpm_algo_info_t) (w : world) :
  printed w (snd (__tpm_event_efi_variable_detect_hash_strategy ev parsed a w)).
Proof.
  unfold __tpm_event_efi_variable_detect_hash_strategy.
  destruct (tpm_event_get_digest ev (openssl_name a)) as [old|].
  - destruct (digest_equal old (digest_compute a (event_data ev) (event_size ev))).
    + apply printed_emit.
    + destruct (digest_equal old (digest_compute a (data parsed) (len parsed)));
        apply printed_emit.
  - apply printed_emit.
Qed.

Lemma authority_get_record_printed
    (parsed : tpm_parsed_event_t) (p : char_ptr)
    (ctx : tpm_event_log_rehash_ctx_t image_t) (w : world) :
  printed w (snd (efi_variable_authority_get_record parsed p ctx w)).
Proof.
  unfold efi_variable_authority_get_record.
  destruct (authority_db_name (variable_name parsed)) as [db|].
  - destruct (next_stage_img ctx) as [img|].
    + destruct (authenticode_get_signer img) as [signer|].
      * apply printed_emit.
      * apply printed_refl.
    + apply printed_emit.
  - apply printed_refl.
Qed.

(** The part of a rehash that follows the resolution of the name. *)
Lemma rehash_body_printed
    (ev : tpm_event_t tpm_evdigest_t) (parsed : tpm_parsed_event_t)
    (ctx : tpm_event_log_rehash_ctx_t image_t) (p : char_ptr) (w w1 : world) :
  tpm_efi_variable_event_extract_full_varname parsed w = (Ret p, w1) ->
  printed w1 (snd (__tpm_event_efi_variable_rehash ev parsed ctx w)).
Proof.
  intros E1. unfold __tpm_event_efi_variable_rehash.
  rewrite (bind_ret _ _ _ _ _ E1).
  assert (Hp : p <> NULL_str).
  { destruct (extract_full_varname_run parsed w) as (p' & w' & E & Hp & _).
    rewrite E1 in E. now injection E as <- <-. }
  assert (Hrest :
    forall k : M (option tpm_evdigest_t),
      match p with
      | NULL_str =>
          fatal ("Unable to extract EFI variable name from EFI_VARIABLE event" ++ nl)
      | _ => k
      end w1 = k w1).
  { intros k. destruct p; [contradiction|reflexivity|reflexivity]. }
  rewrite Hrest. clear Hrest.
  pose proof (detect_hash_strategy_printed ev parsed (algo ctx) w1) as P2.
  destruct (__tpm_event_efi_variable_detect_hash_strategy ev parsed (algo ctx) w1)
    as [[strategy|m] w2] eqn:E2; cbn [snd] in P2.
  2:{ rewrite (bind_fatal _ _ _ _ _ E2). exact P2. }
  rewrite (bind_ret _ _ _ _ _ E2).
  destruct (strategy <? 0); [exact P2|].
  assert (P3 : forall w3 r,
    (if event_type ev =? TPM2_EFI_VARIABLE_AUTHORITY
     then efi_variable_authority_get_record parsed p ctx
     else name <- load p;; ret (ptr_of_option (runtime_read_efi_variable name))) w2
    = (r, w3) -> printed w1 w3).
  { intros w3 r E3. apply (printed_trans _ w2); [exact P2|].
    destruct (event_type ev =? TPM2_EFI_VARIABLE_AUTHORITY).
    - pose proof (authority_get_record_printed parsed p ctx w2) as P.
      rewrite E3 in P. exact P.
    - unfold bind, load, ret in E3. injection E3 as <- <-. apply printed_refl. }
  destruct ((if event_type ev =? TPM2_EFI_VARIABLE_AUTHORITY
             then efi_variable_authority_get_record parsed p ctx
             else name <- load p;;
                  ret (ptr_of_option (runtime_read_efi_variable name))) w2)
    as [[file_data|m] w3] eqn:E3.
  2:{ rewrite (bind_fatal _ _ _ _ _ E3). exact (P3 _ _ eq_refl). }
  specialize (P3 _ _ eq_refl).
  rewrite (bind_ret _ _ _ _ _ E3).
  destruct file_data as [| |fd]; try exact P3.
  destruct (strategy =? HASH_STRATEGY_EVENT).
  - unfold bind at 1. unfold bind at 1. rewrite build_event_run.
    destruct (__tpm_event_marshal_efi_variable _ parsed _ _) as [e|].
    + destruct (opt_debug >? 1).
      * unfold bind at 1. unfold bind at 1. unfold load at 1.
        unfold bind at 1. unfold debug at 1.
        destruct (debug_lines_printed
                    (hexdump (buffer_read_pointer e) (buffer_available e))
                    (emit (Debug ("  Remarshaled event for EFI variable "
                                  ++ deref p w3 ++ ":" ++ nl)) w3))
          as (w4 & E4 & P4).
        rewrite E4. cbn [snd].
        eapply printed_trans; [exact P3|].
        eapply printed_trans; [apply printed_emit|exact P4].
      * exact P3.
    + cbn [snd fatal].
      eapply printed_trans; [exact P3|apply printed_emit].
  - exact P3.
Qed.

(** X18.  A rehash only adds to the diagnostic output (what was printed
    before stays in front), and it leaves the static name buffer as the
    name resolution set it: untouched for a shim alias, holding the full
    name of the event otherwise. *)
Theorem rehash_state_effect
    (ev : tpm_event_t tpm_evdigest_t) (parsed : tpm_parsed_event_t)
    (ctx : tpm_event_log_rehash_ctx_t image_t) (w : world) :
  let w' := snd (__tpm_event_efi_variable_rehash ev parsed ctx w) in
  (exists lines, console w' = (console w ++ lines)%list)
  /\ varname w'
     = match shim_variable_get_full_rtname (variable_name parsed) with
       | Some _ => varname w
       | None => resolved_full_name parsed
       end.
Proof.
  intros w'. subst w'.
  destruct (tpm_efi_variable_event_extract_full_varname parsed w)
    as [[p|m] w1] eqn:E1.
  2:{ destruct (extract_full_varname_run parsed w) as (p' & w1' & E & _).
      rewrite E1 in E. discriminate. }
  destruct (rehash_body_printed ev parsed ctx p w w1 E1) as (V & lines & C).
  unfold tpm_efi_variable_event_extract_full_varname, resolved_full_name in *.
  destruct (shim_variable_get_full_rtname (variable_name parsed)) as [alias|].
  - injection E1 as <- <-. split; [now exists lines|exact V].
  - unfold bind, store_varname, ret in E1. injection E1 as <- <-.
    cbn [console varname] in *. split; [now exists lines|exact V].
Qed.

(** ** Room in the buffer *)

(** X19.  The marshaler does not write past the buffer it is given: with
    less room than GUID, length fields, name and data take, it fails. *)
Theorem marshal_needs_room
    (bp : buffer_t) (parsed : tpm_parsed_event_t) (raw : list byte) (n : Z) :
  List.length (variable_guid parsed) = 16%nat ->
  strlen (variable_name parsed) < 2 ^ 31 ->
  0 <= n <= Z.of_nat (List.length raw) ->
  buffer_tailroom bp < 16 + 8 + 8 + 2 * strlen (variable_name parsed) + n ->
  __tpm_event_marshal_efi_variable bp parsed raw n = None.
Proof.
  intros Hguid Hshort Hn Hroom.
  destruct (__tpm_event_marshal_efi_variable bp parsed raw n) as [out|] eqn:E;
    [exfalso|reflexivity].
  destruct (marshal_some _ _ _ _ _ Hshort E) as (name16 & _ & L & -> & Hfit).
  cbn [buf_data] in Hfit. unfold buffer_tailroom in Hroom.
  assert (Hfg : firstn 16 (variable_guid parsed) = variable_guid parsed)
    by (rewrite <- Hguid; apply firstn_all).
  rewrite Hfg in Hfit.
  rewrite !length_app, !length_le_bytes, length_firstn in Hfit.
  unfold byte in *. lia.
Qed.

(** ** Printing *)

(** X20.  Printing an event resolves its full name first and hands the
    printer one line, "  --> EFI variable <full name>: <len> bytes of
    data", in the state the name resolution left: nothing printed yet,
    the static name buffer already overwritten. *)
Theorem print_names_the_variable
    (parsed : tpm_parsed_event_t) (print_fn : string -> M unit) (w : world) :
  let w1 := snd (tpm_efi_variable_event_extract_full_varname parsed w) in
  __tpm_event_efi_variable_print parsed print_fn w
  = print_fn ("  --> EFI variable " ++ resolved_full_name parsed ++ ": "
              ++ format_u (len parsed) ++ " bytes of data" ++ nl) w1
  /\ console w1 = console w
  /\ varname w1
     = match shim_variable_get_full_rtname (variable_name parsed) with
       | Some _ => varname w
       | None => resolved_full_name parsed
       end.
Proof.
  intros w1. subst w1.
  destruct (extract_full_varname_run parsed w) as (p & w1 & E & _ & Hc & Hd).
  unfold __tpm_event_efi_variable_print.
  rewrite (bind_ret _ _ _ _ _ E), E. cbn [snd].
  unfold bind, load. rewrite (Hd w1 eq_refl).
  split; [reflexivity|]. split; [exact Hc|].
  unfold tpm_efi_variable_event_extract_full_varname, resolved_full_name in *.
  destruct (shim_variable_get_full_rtname (variable_name parsed)).
  - now injection E as <- <-.
  - unfold bind, store_varname, ret in E. now injection E as <- <-.
Qed.

End Coverage.

(** * The properties on the sample platform *)

Local Open Scope string_scope.
Local Open Scope Z_scope.

Local Abbreviation get_digest := (@tpm_event_get_digest sample_platform).
Local Abbreviation digests_equal := (@digest_equal sample_platform).
Local Abbreviation digest_of := (@digest_compute sample_platform).
Local Abbreviation read_variable := (@runtime_read_efi_variable sample_platform).
Local Abbreviation signer_of := (@authenticode_get_signer sample_platform).
Local Abbreviation locate_record :=
  (@efi_application_locate_authority_record sample_platform).
Local Abbreviation AUTHORITY := (@TPM2_EFI_VARIABLE_AUTHORITY sample_platform).
Local Abbreviation shim_alias := (@shim_variable_get_full_rtname sample_platform).
Local Abbreviation uuid_text := (@tpm_event_decode_uuid sample_platform).
Local Abbreviation detect :=
  (@__tpm_event_efi_variable_detect_hash_strategy sample_platform).
Local Abbreviation rehash := (@__tpm_event_efi_variable_rehash sample_platform).
Local Abbreviation get_record :=
  (@efi_variable_authority_get_record sample_platform).
Local Abbreviation extract_full_varname :=
  (@tpm_efi_variable_event_extract_full_varname sample_platform).
Local Abbreviation full_name := (@resolved_full_name sample_platform).
Local Abbreviation parse := (@__tpm_event_parse_efi_variable sample_platform).
Local Abbreviation build_event := __tpm_event_efi_variable_build_event.

Ltac not_in_list :=
  simpl; intros Hin; repeat (destruct Hin as [Hin|Hin]; [discriminate Hin|]);
  exact Hin.

(** Peels the premises off a conjunction, leaving its last component. *)
Ltac premises := repeat (split; [first [reflexivity | simpl; tauto]|]).

(** ** Strategy detection *)

(** An event whose recorded digest fits neither convention is given the
    data-only strategy and the "I'm lost." diagnostic. *)
Lemma detect_hash_strategy_decides_witness :
  get_digest odd_event (openssl_name sha256) = Some ("sha256", 99)
  /\ detect odd_event ambiguous_parsed sha256 w0
     = (Ret HASH_STRATEGY_DATA, emit msg_undetermined w0).
Proof.
  premises.
  destruct (@detect_hash_strategy_decides sample_platform
              odd_event ambiguous_parsed sha256 ("sha256", 99) w0 eq_refl)
    as (_ & _ & Hlost & _).
  apply Hlost; reflexivity.
Defined.

Lemma detect_whole_event_first_witness :
  get_digest ambiguous_event (openssl_name sha256) = Some ("sha256", 3)
  /\ digests_equal ("sha256", 3)
       (digest_of sha256 (event_data ambiguous_event)
                  (event_size ambiguous_event)) = true
  /\ digests_equal ("sha256", 3)
       (digest_of sha256 (data ambiguous_parsed) (len ambiguous_parsed)) = true
  /\ detect ambiguous_event ambiguous_parsed sha256 w0
     = (Ret HASH_STRATEGY_EVENT, emit msg_hashed_event w0).
Proof.
  premises.
  apply (@detect_whole_event_first sample_platform
           ambiguous_event ambiguous_parsed sha256 ("sha256", 3) w0);
    reflexivity.
Defined.

Lemma rehash_without_recorded_digest_witness :
  get_digest db_event_sha1_only (openssl_name sha256) = None
  /\ fst (rehash db_event_sha1_only db_parsed (ctx_with (Some signed_image)) w0)
     = Ret None.
Proof.
  premises.
  apply (@rehash_without_recorded_digest sample_platform
           db_event_sha1_only db_parsed (ctx_with (Some signed_image)) w0).
  reflexivity.
Defined.

(** ** Authority events *)

Lemma rehash_db_authority_record_witness :
  let R := buffer_of_bytes [0x30; 0x82; 0x04; 0x4c] in
  let ctx := ctx_with (Some signed_image) in
  event_type db_event = AUTHORITY
  /\ variable_name db_parsed = "db"
  /\ get_digest db_event (openssl_name (algo ctx)) = Some ("sha256", 198)
  /\ digests_equal ("sha256", 198)
       (digest_of (algo ctx) (data db_parsed) (len db_parsed)) = true
  /\ fst (detect db_event db_parsed (algo ctx) w0) = Ret HASH_STRATEGY_DATA
  /\ next_stage_img ctx = Some signed_image
  /\ signer_of signed_image = Some "CN=SUSE Linux Enterprise Secure Boot CA"
  /\ locate_record "db" "CN=SUSE Linux Enterprise Secure Boot CA" = Some R
  /\ fst (rehash db_event db_parsed ctx w0)
     = Ret (Some (digest_of sha256 [0x30; 0x82; 0x04; 0x4c] 4)).
Proof.
  intros R ctx. premises.
  apply (@rehash_db_authority_record sample_platform
           db_event db_parsed ctx ("sha256", 198) signed_image
           "CN=SUSE Linux Enterprise Secure Boot CA" R w0);
    reflexivity.
Defined.

Lemma rehash_authority_without_image_witness :
  event_type db_event = AUTHORITY
  /\ In (variable_name db_parsed) ["Shim"; "db"; "MokListRT"]
  /\ next_stage_img (ctx_with None) = None
  /\ get_digest db_event (openssl_name sha256) = Some ("sha256", 198)
  /\ fst (rehash db_event db_parsed (ctx_with None) w0)
     = Ret (Some ("sha256", 198)).
Proof.
  premises.
  apply (@rehash_authority_without_image sample_platform
           db_event db_parsed (ctx_with None) ("sha256", 198) w0);
    first [reflexivity | simpl; tauto].
Defined.

(** C3 as stated fails: an authority event named db, no next stage
    image, in a log without a SHA-256 digest for the event.  The rehash
    returns no digest. *)
Lemma rehash_authority_without_image_can_fail :
  event_type db_event_sha1_only = AUTHORITY
  /\ In (variable_name db_parsed) ["Shim"; "db"; "MokListRT"]
  /\ next_stage_img (ctx_with None) = None
  /\ fst (rehash db_event_sha1_only db_parsed (ctx_with None) w0) = Ret None.
Proof. premises. reflexivity. Qed.

Lemma authority_database_mapping_witness :
  fst (get_record db_parsed static_varname (ctx_with (Some signed_image)) w0)
  = Ret (Buf (buffer_of_bytes [0x30; 0x82; 0x04; 0x4c]))
  /\ get_record
       secureboot_parsed
       (const_str "SecureBoot-8be4df61-93ca-11d2-aa0d-00e098032b8c")
       (ctx_with (Some signed_image)) w0
     = (Ret (Buf (buffer_of_bytes [1])), w0).
Proof.
  split.
  - destruct (@authority_database_mapping sample_platform
                db_parsed static_varname (ctx_with (Some signed_image)) w0)
      as (Hmap & _).
    apply (Hmap "db" signed_image "CN=SUSE Linux Enterprise Secure Boot CA");
      [simpl; auto|reflexivity|reflexivity].
  - destruct (@authority_database_mapping sample_platform
                secureboot_parsed
                (const_str "SecureBoot-8be4df61-93ca-11d2-aa0d-00e098032b8c")
                (ctx_with (Some signed_image)) w0)
      as (_ & Hother & _).
    apply Hother. not_in_list.
Defined.

Lemma rehash_no_digest_outcomes_coincide_witness :
  fst (rehash bootorder_event bootorder_parsed (ctx_with None) w0) = Ret None
  /\ fst (rehash db_event db_parsed (ctx_with (Some foreign_image)) w0)
     = Ret None
  /\ fst (rehash db_event db_parsed (ctx_with (Some unsigned_image)) w0)
     = Ret None.
Proof.
  split; [|split].
  - destruct (@rehash_no_digest_outcomes_coincide sample_platform
                bootorder_event bootorder_parsed (ctx_with None) w0)
      as (Hread & _).
    apply Hread; [discriminate|reflexivity].
  - destruct (@rehash_no_digest_outcomes_coincide sample_platform
                db_event db_parsed (ctx_with (Some foreign_image)) w0)
      as (_ & Hrec & _).
    apply (Hrec "db" foreign_image "CN=Unknown Vendor"); reflexivity.
  - destruct (@rehash_no_digest_outcomes_coincide sample_platform
                db_event db_parsed (ctx_with (Some unsigned_image)) w0)
      as (_ & _ & Hsigner).
    apply (Hsigner "db" unsigned_image); reflexivity.
Defined.

(** C9 as stated fails: a variable that cannot be read (content
    unavailable) and an image without a signer (verification failure)
    give the same result at the rehash interface. *)
Lemma content_unavailable_is_not_distinct :
  read_variable (full_name bootorder_parsed) = None
  /\ signer_of unsigned_image = None
  /\ fst (rehash bootorder_event bootorder_parsed (ctx_with None) w0)
     = fst (rehash db_event db_parsed (ctx_with (Some unsigned_image)) w0).
Proof. premises. reflexivity. Qed.

(** ** Re-marshaling *)

Lemma euro_name_mismatch (bs : list byte) :
  convert_to_utf16le (variable_name euro_parsed) = Some bs ->
  Z.of_nat (List.length bs) <> 2 * strlen (variable_name euro_parsed).
Proof.
  intros E. vm_compute in E. injection E as <-. vm_compute. discriminate.
Defined.

Lemma remarshal_name_length_mismatch_witness :
  strlen (variable_name euro_parsed) < 2 ^ 31
  /\ (forall bs,
        convert_to_utf16le (variable_name euro_parsed) = Some bs ->
        Z.of_nat (List.length bs) <> 2 * strlen (variable_name euro_parsed))
  /\ fst (build_event euro_parsed [7; 7] 2 w0) = Ret None
  /\ fst (rehash euro_event euro_parsed (ctx_with None) w0)
     = Fatal remarshal_fatal.
Proof.
  split; [reflexivity|]. split; [exact euro_name_mismatch|].
  destruct (@remarshal_name_length_mismatch sample_platform
              euro_event euro_parsed (ctx_with None) w0
              eq_refl euro_name_mismatch) as (Hbuild & Hrehash).
  split.
  - now rewrite Hbuild.
  - apply (Hrehash (whole_digest euro_wire) (buffer_of_bytes [7; 7]));
      reflexivity.
Defined.

(** C4 as stated fails: the name U+20AC takes two bytes in UTF-16LE
    against a declared length of three, the firmware hashed the whole
    event and the variable can be read; the rehash does not come back
    with a per-event failure, it ends the program. *)
Lemma remarshal_failure_ends_the_run :
  convert_to_utf16le (variable_name euro_parsed) = Some [0xAC; 0x20]
  /\ strlen (variable_name euro_parsed) = 3
  /\ rehash euro_event euro_parsed (ctx_with None) w0
     = (Fatal remarshal_fatal,
        mk_world (euro_name ++ "-8be4df61-93ca-11d2-aa0d-00e098032b8c")
                 [msg_hashed_event; msg_marshal_failed euro_parsed]).
Proof. premises. reflexivity. Qed.

Lemma parse_then_build_roundtrip_witness :
  List.length global_guid = 16%nat
  /\ Forall ascii_unit (bytes_of_string "SecureBoot")
  /\ Z.of_nat (List.length (bytes_of_string "SecureBoot")) < 2 ^ 32
  /\ Z.of_nat (List.length [1]) < 2 ^ 32
  /\ exists parsed bp' out,
       parse secureboot_event (buffer_of_bytes secureboot_wire)
       = Some (parsed, bp')
       /\ build_event parsed (data parsed) (len parsed) w0 = (Ret (Some out), w0)
       /\ buffer_read_pointer out = secureboot_wire.
Proof.
  assert (Hascii : Forall ascii_unit (bytes_of_string "SecureBoot")).
  { let l := eval vm_compute in (bytes_of_string "SecureBoot") in
    change (bytes_of_string "SecureBoot") with l.
    repeat (apply Forall_cons; [unfold ascii_unit; lia|]). apply Forall_nil. }
  split; [reflexivity|]. split; [exact Hascii|].
  split; [reflexivity|]. split; [reflexivity|].
  apply (@parse_then_build_roundtrip sample_platform
           secureboot_event global_guid (bytes_of_string "SecureBoot") [1] w0);
    [reflexivity|exact Hascii|reflexivity|reflexivity].
Defined.

(** C5 as stated fails: the wire record of a variable named U+20AC is
    well formed and decodes, yet re-marshaling the decoded event with
    its own payload yields no bytes at all. *)
Lemma roundtrip_fails_on_non_ascii_name :
  euro_wire
  = (global_guid ++ le_bytes 8 1 ++ le_bytes 8 2 ++ [0xAC; 0x20] ++ [7; 7])%list
  /\ exists bp',
       parse euro_event (buffer_of_bytes euro_wire) = Some (euro_parsed, bp')
       /\ fst (build_event euro_parsed (data euro_parsed) (len euro_parsed) w0)
          = Ret None.
Proof.
  split; [reflexivity|]. eexists. split; reflexivity.
Qed.

(** ** The full name *)

Lemma full_varname_resolution_witness :
  shim_alias (variable_name sbat_parsed)
  = Some "SbatLevelRT-605dab50-e046-4300-abb6-3dd810dd8b23"
  /\ extract_full_varname sbat_parsed w0
     = (Ret (const_str "SbatLevelRT-605dab50-e046-4300-abb6-3dd810dd8b23"), w0)
  /\ shim_alias (variable_name secureboot_parsed) = None
  /\ extract_full_varname secureboot_parsed w0
     = (Ret static_varname,
        mk_world "SecureBoot-8be4df61-93ca-11d2-aa0d-00e098032b8c" []).
Proof.
  split; [reflexivity|]. split.
  - destruct (@full_varname_resolution sample_platform sbat_parsed w0)
      as (Halias & _).
    now apply Halias.
  - split; [reflexivity|].
    destruct (@full_varname_resolution sample_platform secureboot_parsed w0)
      as (_ & Hplain & _).
    destruct (Hplain eq_refl) as (Hrun & _). exact Hrun.
Defined.

(** C8 as stated fails.  The call writes to the static array: the
    state after it differs from the state before, and the name behind
    the pointer of one call changes with the next call.  And a name of
    250 letters does not come back as "<name>-<guid>": 255 characters of
    it do. *)
Lemma full_varname_has_effects_and_truncates :
  snd (extract_full_varname secureboot_parsed w0) <> w0
  /\ (let w1 := snd (extract_full_varname secureboot_parsed w0) in
      let w2 := snd (extract_full_varname db_parsed w1) in
      fst (extract_full_varname secureboot_parsed w0) = Ret static_varname
      /\ deref static_varname w1
         = "SecureBoot-8be4df61-93ca-11d2-aa0d-00e098032b8c"
      /\ deref static_varname w2 = "db-d719b2cb-3d3a-4596-a3bc-dad00e67656f")
  /\ (shim_alias (variable_name long_parsed) = None
      /\ String.length
           (deref static_varname (snd (extract_full_varname long_parsed w0)))
         = 255%nat
      /\ String.length
           (variable_name long_parsed ++ "-"
            ++ uuid_text (variable_guid long_parsed)) = 287%nat).
Proof.
  split; [|split].
  - intros E. vm_compute in E. discriminate E.
  - repeat split; reflexivity.
  - repeat split; reflexivity.
Qed.

(** * The further properties on the sample platform *)

Local Abbreviation live_content := (@resolved_content sample_platform).
Local Abbreviation marshal := __tpm_event_marshal_efi_variable.

(** Settles [Forall P l] for a list that computes to a literal. *)
Ltac forall_literal :=
  match goal with
  | |- Forall ?P ?l =>
      let l' := eval vm_compute in l in
      change (Forall P l');
      repeat (apply Forall_cons; [unfold ascii_unit; cbv beta; lia|]);
      apply Forall_nil
  end.

Lemma secureboot_units_ascii : Forall ascii_unit secureboot_units.
Proof. unfold secureboot_units. forall_literal. Defined.

(** ** Decoding *)

Lemma parse_rejects_short_header_witness :
  buffer_available (buffer_of_bytes [1; 2; 3]) < 32
  /\ parse secureboot_event (buffer_of_bytes [1; 2; 3]) = None.
Proof.
  premises.
  apply (@parse_rejects_short_header sample_platform). reflexivity.
Defined.

Lemma parse_len_is_payload_size_witness :
  let bp := buffer_of_bytes secureboot_wire in
  let bp' := mk_buffer secureboot_wire 53 53 in
  Forall (fun b => 0 <= b < 256) (buffer_read_pointer bp)
  /\ buffer_available bp < 2 ^ 32
  /\ parse secureboot_event bp = Some (secureboot_parsed, bp')
  /\ List.length (variable_guid secureboot_parsed) = 16%nat
  /\ len secureboot_parsed = Z.of_nat (List.length (data secureboot_parsed))
  /\ buffer_available bp'
     <= buffer_available bp - 32 - len secureboot_parsed.
Proof.
  intros bp bp'.
  assert (Hbytes : Forall (fun b => 0 <= b < 256) (buffer_read_pointer bp))
    by forall_literal.
  split; [exact Hbytes|]. split; [reflexivity|]. split; [reflexivity|].
  apply (@parse_len_is_payload_size sample_platform
           secureboot_event bp secureboot_parsed bp' Hbytes);
    reflexivity.
Defined.

Lemma parse_leaves_trailing_bytes_witness :
  let bp := buffer_of_bytes (secureboot_wire ++ [9; 9]) in
  List.length global_guid = 16%nat
  /\ Forall ascii_unit secureboot_units
  /\ Z.of_nat (List.length secureboot_units) < 2 ^ 32
  /\ Z.of_nat (List.length [1]) < 2 ^ 32
  /\ buffer_read_pointer bp
     = (efi_variable_wire global_guid secureboot_units [1] ++ [9; 9])%list
  /\ exists bp',
       parse secureboot_event bp
       = Some (mk_parsed global_guid (string_of_bytes secureboot_units) [1]
                         (Z.of_nat (List.length [1])), bp')
       /\ buffer_read_pointer bp' = [9; 9]
       /\ buffer_available bp' = Z.of_nat (List.length [9; 9]).
Proof.
  intros bp.
  split; [reflexivity|]. split; [exact secureboot_units_ascii|].
  split; [reflexivity|]. split; [reflexivity|]. split; [reflexivity|].
  apply (@parse_leaves_trailing_bytes sample_platform
           secureboot_event bp global_guid secureboot_units [1] [9; 9]);
    first [reflexivity | exact secureboot_units_ascii].
Defined.

(** ** Re-marshaling *)

Lemma build_event_layout_witness :
  let out :=
    mk_buffer (efi_variable_wire global_guid secureboot_units [0]) 0 53 in
  List.length (variable_guid secureboot_parsed) = 16%nat
  /\ strlen (variable_name secureboot_parsed) < 2 ^ 31
  /\ 0 <= 1 <= Z.of_nat (List.length [0])
  /\ build_event secureboot_parsed [0] 1 w0 = (Ret (Some out), w0)
  /\ buffer_available out
     = 16 + 8 + 8 + 2 * strlen (variable_name secureboot_parsed) + 1
  /\ buffer_tailroom out = 0.
Proof.
  intros out.
  split; [reflexivity|]. split; [reflexivity|].
  split; [simpl; lia|]. split; [reflexivity|].
  destruct (build_event_layout secureboot_parsed [0] 1 out w0 w0)
    as (_ & _ & Havail & Hroom); try reflexivity; [simpl; lia|].
  split; assumption.
Defined.

Lemma build_event_succeeds_iff_ascii_witness :
  List.length (variable_guid secureboot_parsed) = 16%nat
  /\ strlen (variable_name secureboot_parsed) < 2 ^ 31
  /\ Forall (fun b => b <> 0)
       (bytes_of_string (variable_name secureboot_parsed))
  /\ Forall (fun b => b < 0x80)
       (bytes_of_string (variable_name secureboot_parsed))
  /\ exists out,
       build_event secureboot_parsed [0]
                   (Z.of_nat (List.length [0])) w0 = (Ret (Some out), w0).
Proof.
  assert (Hnul : Forall (fun b => b <> 0)
                   (bytes_of_string (variable_name secureboot_parsed)))
    by forall_literal.
  assert (Hascii : Forall (fun b => b < 0x80)
                     (bytes_of_string (variable_name secureboot_parsed)))
    by forall_literal.
  split; [reflexivity|]. split; [reflexivity|].
  split; [exact Hnul|]. split; [exact Hascii|].
  apply (build_event_succeeds_iff_ascii secureboot_parsed [0] w0
           eq_refl eq_refl Hnul).
  exact Hascii.
Defined.

Lemma build_then_parse_witness :
  List.length global_guid = 16%nat
  /\ Forall ascii_unit secureboot_units
  /\ Z.of_nat (List.length secureboot_units) < 2 ^ 32
  /\ Z.of_nat (List.length [0]) < 2 ^ 32
  /\ exists out bp',
       build_event
         (mk_parsed global_guid (string_of_bytes secureboot_units) [1] 1)
         [0] (Z.of_nat (List.length [0])) w0
       = (Ret (Some out), w0)
       /\ parse secureboot_event out
          = Some (mk_parsed global_guid (string_of_bytes secureboot_units) [0]
                            (Z.of_nat (List.length [0])), bp')
       /\ buffer_read_pointer bp' = [].
Proof.
  split; [reflexivity|]. split; [exact secureboot_units_ascii|].
  split; [reflexivity|]. split; [reflexivity|].
  apply (@build_then_parse sample_platform
           secureboot_event global_guid secureboot_units [1] 1 [0] w0);
    first [reflexivity | exact secureboot_units_ascii].
Defined.

Lemma marshal_needs_room_witness :
  List.length (variable_guid secureboot_parsed) = 16%nat
  /\ strlen (variable_name secureboot_parsed) < 2 ^ 31
  /\ 0 <= 1 <= Z.of_nat (List.length [0])
  /\ buffer_tailroom (buffer_alloc_write 52)
     < 16 + 8 + 8 + 2 * strlen (variable_name secureboot_parsed) + 1
  /\ marshal (buffer_alloc_write 52) secureboot_parsed [0] 1 = None.
Proof.
  split; [reflexivity|]. split; [reflexivity|].
  split; [simpl; lia|]. split; [reflexivity|].
  apply marshal_needs_room; first [reflexivity | simpl; lia].
Defined.

(** ** Rehash *)

Lemma rehash_whole_event_digest_witness :
  let wire := efi_variable_wire global_guid secureboot_units [1] in
  List.length global_guid = 16%nat
  /\ Forall ascii_unit secureboot_units
  /\ Z.of_nat (List.length secureboot_units) < 2 ^ 32
  /\ get_digest secureboot_event (openssl_name sha256)
     = Some (whole_digest secureboot_wire)
  /\ digests_equal (whole_digest secureboot_wire)
       (digest_of sha256 (event_data secureboot_event)
                  (event_size secureboot_event)) = true
  /\ live_content secureboot_event secureboot_parsed (ctx_with None)
     = Buf (buffer_of_bytes [1])
  /\ fst (rehash secureboot_event secureboot_parsed (ctx_with None) w0)
     = Ret (Some (digest_of sha256 wire (Z.of_nat (List.length wire)))).
Proof.
  intros wire.
  split; [reflexivity|]. split; [exact secureboot_units_ascii|].
  split; [reflexivity|]. split; [reflexivity|]. split; [reflexivity|].
  split; [reflexivity|].
  apply (@rehash_whole_event_digest sample_platform
           secureboot_event global_guid secureboot_units [1] 1
           (ctx_with None) (whole_digest secureboot_wire)
           (buffer_of_bytes [1]) w0);
    first [reflexivity | exact secureboot_units_ascii].
Defined.

Lemma rehash_unchanged_whole_event_witness :
  List.length global_guid = 16%nat
  /\ Forall ascii_unit secureboot_units
  /\ Z.of_nat (List.length secureboot_units) < 2 ^ 32
  /\ event_data secureboot_event
     = efi_variable_wire global_guid secureboot_units [1]
  /\ event_size secureboot_event
     = Z.of_nat (List.length (event_data secureboot_event))
  /\ get_digest secureboot_event (openssl_name sha256)
     = Some (whole_digest secureboot_wire)
  /\ live_content secureboot_event secureboot_parsed (ctx_with None)
     = Buf (buffer_of_bytes [1])
  /\ exists md,
       fst (rehash secureboot_event secureboot_parsed (ctx_with None) w0)
       = Ret (Some md)
       /\ digests_equal (whole_digest secureboot_wire) md = true.
Proof.
  split; [reflexivity|]. split; [exact secureboot_units_ascii|].
  split; [reflexivity|]. split; [reflexivity|]. split; [reflexivity|].
  split; [reflexivity|]. split; [reflexivity|].
  apply (@rehash_unchanged_whole_event sample_platform
           secureboot_event global_guid secureboot_units [1] 1
           (ctx_with None) (whole_digest secureboot_wire)
           (buffer_of_bytes [1]) w0);
    first [reflexivity | exact secureboot_units_ascii].
Defined.

Lemma rehash_unchanged_data_only_witness :
  let old_md := whole_digest [0x73; 0x62; 0x61; 0x74] in
  get_digest sbat_event (openssl_name sha256) = Some old_md
  /\ digests_equal old_md
       (digest_of sha256 (event_data sbat_event) (event_size sbat_event))
     = false
  /\ digests_equal old_md
       (digest_of sha256 (data sbat_parsed) (len sbat_parsed)) = true
  /\ len sbat_parsed = Z.of_nat (List.length (data sbat_parsed))
  /\ live_content sbat_event sbat_parsed (ctx_with None)
     = Buf (buffer_of_bytes [0x73; 0x62; 0x61; 0x74])
  /\ exists md,
       fst (rehash sbat_event sbat_parsed (ctx_with None) w0) = Ret (Some md)
       /\ digests_equal old_md md = true.
Proof.
  intros old_md. premises.
  apply (@rehash_unchanged_data_only sample_platform
           sbat_event sbat_parsed (ctx_with None) old_md
           (buffer_of_bytes [0x73; 0x62; 0x61; 0x74]) w0);
    reflexivity.
Defined.

Lemma rehash_fatal_only_on_remarshal_witness :
  fst (rehash euro_event euro_parsed (ctx_with None) w0) = Fatal remarshal_fatal
  /\ fst (detect euro_event euro_parsed sha256 w0) = Ret HASH_STRATEGY_EVENT
  /\ exists file_data,
       live_content euro_event euro_parsed (ctx_with None) = Buf file_data
       /\ fst (build_event euro_parsed (buffer_read_pointer file_data)
                           (buffer_available file_data) w0) = Ret None.
Proof.
  split; [reflexivity|].
  destruct (@rehash_fatal_only_on_remarshal sample_platform
              euro_event euro_parsed (ctx_with None) w0 remarshal_fatal
              eq_refl) as (_ & Hdetect & Hbuild).
  split; [exact Hdetect|exact Hbuild].
Defined.

Lemma rehash_returns_for_ascii_names_witness :
  List.length global_guid = 16%nat
  /\ Forall ascii_unit secureboot_units
  /\ Z.of_nat (List.length secureboot_units) < 2 ^ 32
  /\ exists md,
       fst (rehash secureboot_event
                   (mk_parsed global_guid (string_of_bytes secureboot_units)
                              [1] 1)
                   (ctx_with (Some signed_image)) w0) = Ret md.
Proof.
  split; [reflexivity|]. split; [exact secureboot_units_ascii|].
  split; [reflexivity|].
  apply (@rehash_returns_for_ascii_names sample_platform);
    first [reflexivity | exact secureboot_units_ascii].
Defined.

Lemma rehash_ignores_image_witness :
  (event_type secureboot_event <> AUTHORITY
   \/ authority_db_name (variable_name secureboot_parsed) = None)
  /\ fst (rehash secureboot_event secureboot_parsed (mk_ctx sha256 None) w0)
     = fst (rehash secureboot_event secureboot_parsed
                   (mk_ctx sha256 (Some signed_image)) w0).
Proof.
  assert (Hplain : event_type secureboot_event <> AUTHORITY
                   \/ authority_db_name (variable_name secureboot_parsed) = None)
    by (right; reflexivity).
  split; [exact Hplain|].
  apply (@rehash_ignores_image sample_platform
           secureboot_event secureboot_parsed sha256 None (Some signed_image) w0).
  exact Hplain.
Defined.

(** ** The full name *)

Lemma full_varname_bounded_witness :
  shim_alias (variable_name long_parsed) = None
  /\ fst (extract_full_varname long_parsed w0) = Ret static_varname
  /\ (String.length
        (deref static_varname (snd (extract_full_varname long_parsed w0)))
      <= 255)%nat.
Proof.
  split; [reflexivity|].
  apply (@full_varname_bounded sample_platform long_parsed w0). reflexivity.
Defined.

Lemma full_varname_pointer_is_overwritten_witness :
  let w1 := mk_world "SecureBoot-8be4df61-93ca-11d2-aa0d-00e098032b8c" [] in
  let w2 := mk_world "db-d719b2cb-3d3a-4596-a3bc-dad00e67656f" [] in
  shim_alias (variable_name db_parsed) = None
  /\ extract_full_varname secureboot_parsed w0 = (Ret static_varname, w1)
  /\ extract_full_varname db_parsed w1 = (Ret static_varname, w2)
  /\ shim_alias (variable_name secureboot_parsed) = None
  /\ deref static_varname w1 = full_name secureboot_parsed
  /\ deref static_varname w2 = full_name db_parsed.
Proof.
  intros w1 w2. premises.
  destruct (@full_varname_pointer_is_overwritten sample_platform
              secureboot_parsed db_parsed w0 w1 w2
              static_varname static_varname eq_refl eq_refl eq_refl)
    as (Hplain & _).
  destruct (Hplain eq_refl) as [_ Hlater]. exact Hlater.
Defined.

Lemma rehash_null_iff_witness :
  live_content bootorder_event bootorder_parsed (ctx_with None) = NULL
  /\ fst (rehash bootorder_event bootorder_parsed (ctx_with None) w0) = Ret None.
Proof.
  split; [reflexivity|].
  apply (@rehash_null_iff sample_platform
           bootorder_event bootorder_parsed (ctx_with None) w0).
  right. reflexivity.
Defined.

Lemma authority_record_not_found_iff_witness :
  In (variable_name db_parsed) ["Shim"; "db"; "MokListRT"]
  /\ next_stage_img (ctx_with None) = None
  /\ fst (get_record db_parsed static_varname (ctx_with None) w0)
     = Ret EFI_BSA_NOT_FOUND.
Proof.
  premises.
  apply (@authority_record_not_found_iff sample_platform
           db_parsed static_varname (ctx_with None) w0).
  split; [simpl; tauto|reflexivity].
Defined.
